(** * scripts/remove_white_background.py: background removal, verified

    A shallow embedding of the script's three functions
    ([remove_background], [process_directory], [main]) and of the library
    calls they rely on, followed by the properties of the pixel transform,
    the corner-based background detection, the batch driver and the
    command line.

    Conventions.
    - Python [int] is [Z]; a pixel tuple is [pixel]; an RGB 3-tuple is
      [color]; [str] is [string] (bytes, POSIX paths).
    - A Python exception is a value of [exn]; code that can raise returns a
      [result]; code that also prints or touches files lives in [M].
    - Each definition cites the source lines it embeds. *)

From stdpp Require Import gmap strings list.
From Stdlib Require Import ZArith Lia Ascii.

Local Open Scope Z_scope.

(** ** Exceptions and results *)

Inductive exn :=
  | NameError (name : string)
  | IndexError
  | ValueError
  | TypeError
  | OSError
  | UnidentifiedImageError.

Inductive result (A : Type) :=
  | Ok (a : A)
  | Raise (e : exn).
Arguments Ok {A} a.
Arguments Raise {A} e.

#[global] Instance exn_eq_dec : EqDecision exn.
Proof. solve_decision. Defined.

#[global] Instance result_ret : MRet result := @Ok.
#[global] Instance result_bind : MBind result := λ A B f r,
  match r with
  | Ok a => f a
  | Raise e => Raise e
  end.

(** ** Pixels and images (PIL) *)

(** [tuple(corner[:3])]: an RGB triple. *)
Definition color : Type := Z * Z * Z.

(** An element of [img.getdata()]: a 3-tuple (no alpha channel) or a
    4-tuple (with alpha). *)
Inductive pixel :=
  | Px3 (r g b : Z)
  | Px4 (r g b a : Z).

#[global] Instance pixel_eq_dec : EqDecision pixel.
Proof. solve_decision. Defined.

(** [item[:3]] *)
Definition rgb (item : pixel) : color :=
  match item with
  | Px3 r g b => (r, g, b)
  | Px4 r g b _ => (r, g, b)
  end.

(** The alpha a pixel carries: its fourth channel, or 255 (opaque) when it
    has none. *)
Definition alpha (item : pixel) : Z :=
  match item with
  | Px3 _ _ _ => 255
  | Px4 _ _ _ a => a
  end.

Inductive mode := RGB | RGBA.

#[global] Instance mode_eq_dec : EqDecision mode.
Proof. solve_decision. Defined.

(** A decoded image: [img.mode], [img.size = (width, height)] and the
    flattened row-major pixel sequence [img.getdata()]. *)
Record image := Image {
  img_mode : mode;
  img_size : Z * Z;
  img_data : list pixel
}.

#[global] Instance image_eq_dec : EqDecision image.
Proof. solve_decision. Defined.

(** What PIL guarantees of a decoded image: both dimensions at least 1 and
    one pixel per cell. *)
Definition image_wf (img : image) : Prop :=
  1 ≤ (img_size img).1 ∧ 1 ≤ (img_size img).2 ∧
  Z.of_nat (length (img_data img)) = (img_size img).1 * (img_size img).2.

(** [img.convert('RGBA')] on an RGB or RGBA image: an opaque alpha channel
    is added to 3-channel pixels; colours and size are kept. *)
Definition to_rgba (p : pixel) : pixel :=
  match p with
  | Px3 r g b => Px4 r g b 255
  | Px4 _ _ _ _ => p
  end.

Definition convert_RGBA (img : image) : image :=
  {| img_mode := RGBA;
     img_size := img_size img;
     img_data := to_rgba <$> img_data img |}.

(** [img.putdata(new_data)]: the pixel sequence is replaced, the size is
    the image's own. *)
Definition putdata (img : image) (new_data : list pixel) : image :=
  {| img_mode := img_mode img;
     img_size := img_size img;
     img_data := new_data |}.

(** ** Python sequences *)

(** [l[i]]: a negative index counts from the end; out of range raises
    IndexError. *)
Definition getitem {A} (l : list A) (i : Z) : result A :=
  let n := Z.of_nat (length l) in
  let j := if i <? 0 then i + n else i in
  if (j <? 0) || (n <=? j) then Raise IndexError
  else match l !! Z.to_nat j with
       | Some x => Ok x
       | None => Raise IndexError
       end.

(** ** collections.Counter *)

(** A Counter is a dict, which keeps its keys in insertion order: an
    association list from key to count. [counter_add k c] is
    [c[k] += 1]. *)
Fixpoint counter_add (k : color) (c : list (color * Z)) : list (color * Z) :=
  match c with
  | [] => [(k, 1)]
  | (k', n) :: c' =>
      if decide (k = k') then (k', n + 1) :: c'
      else (k', n) :: counter_add k c'
  end.

(** [Counter(iterable)] *)
Definition Counter (l : list color) : list (color * Z) :=
  foldl (λ c k, counter_add k c) [] l.

(** [max(items, key=itemgetter(1))] started from [best]: a later item
    replaces the current one only when its count is strictly greater. *)
Fixpoint max_by_count (best : color * Z) (items : list (color * Z)) : color * Z :=
  match items with
  | [] => best
  | x :: items' => max_by_count (if best.2 <? x.2 then x else best) items'
  end.

(** [c.most_common(1)], which is [heapq.nlargest(1, c.items(), key=count)]:
    the empty list for an empty counter, else the one-element list with the
    first item of greatest count. *)
Definition most_common_1 (c : list (color * Z)) : list (color * Z) :=
  match c with
  | [] => []
  | x :: c' => [max_by_count x c']
  end.

(** ** Background detection (lines 40-50) *)

(** The flattened indices of the four sampled pixels, lines 41-44. *)
Definition corner_indices (size : Z * Z) : list Z :=
  [ 0;                          (* Top-left *)
    size.1 - 1;                 (* Top-right *)
    size.1 * (size.2 - 1);      (* Bottom-left *)
    size.1 * size.2 - 1 ].      (* Bottom-right *)

(** The list display of lines 40-45: the items are read in order and the
    first failing read raises. *)
Fixpoint getitems {A} (l : list A) (indices : list Z) : result (list A) :=
  match indices with
  | [] => Ok []
  | i :: indices' =>
      x ← getitem l i;
      xs ← getitems l indices';
      Ok (x :: xs)
  end.

(** Lines 40-50: [corners], [corner_colors] and [bg_color]. *)
Definition detect_bg_color (size : Z * Z) (data : list pixel) : result color :=
  corners ← getitems data (corner_indices size);
  let corner_colors := rgb <$> corners in
  top ← getitem (most_common_1 (Counter corner_colors)) 0;
  Ok top.1.

(** ** The pixel loop (lines 55-75) *)

(** Line 63. *)
Definition color_distance (item : pixel) (bg_color : color) : Z :=
  let '(r, g, b) := rgb item in
  Z.abs (r - bg_color.1.1) + Z.abs (g - bg_color.1.2) + Z.abs (b - bg_color.2).

(** One iteration, lines 59-75, on the loop state
    [(new_data, pixels_changed)]. *)
Definition loop_body (bg_color : color) (tolerance : Z)
    (st : list pixel * Z) (item : pixel) : list pixel * Z :=
  let '(new_data, pixels_changed) := st in
  let '(r, g, b) := rgb item in
  if color_distance item bg_color <=? tolerance then
    (new_data ++ [Px4 r g b 0], pixels_changed + 1)
  else
    match item with
    | Px4 _ _ _ _ => (new_data ++ [item], pixels_changed)
    | Px3 _ _ _ => (new_data ++ [Px4 r g b 255], pixels_changed)
    end.

(** Lines 55-75: the loop over [data], from [new_data = []] and
    [pixels_changed = 0]. *)
Definition pixel_loop (bg_color : color) (tolerance : Z) (data : list pixel)
    : list pixel * Z :=
  foldl (loop_body bg_color tolerance) ([], 0) data.

(** Lines 33-78: conversion, detection, loop and [putdata]; the image that
    is saved and the count that is printed. *)
Definition transform (img : image) (tolerance : Z) : result (color * image * Z) :=
  let img := if decide (img_mode img = RGBA) then img else convert_RGBA img in
  let data := img_data img in
  bg_color ← detect_bg_color (img_size img) data;
  let '(new_data, pixels_changed) := pixel_loop bg_color tolerance data in
  Ok (bg_color, putdata img new_data, pixels_changed).

(** ** Strings and POSIX paths (str, posixpath) *)

Definition chars (s : string) : list ascii := String.list_ascii_of_string s.
Definition str (l : list ascii) : string := String.string_of_list_ascii l.

(** [len(s)] *)
Definition len {A} (l : list A) : Z := Z.of_nat (length l).

(** [s.rfind(c)] for a one-character [c]: the highest index of [c], or -1.
    [rfind_from] scans from index [i] with [last] the answer so far. *)
Fixpoint rfind_from (c : ascii) (l : list ascii) (i last : Z) : Z :=
  match l with
  | [] => last
  | x :: l' => rfind_from c l' (i + 1) (if decide (x = c) then i else last)
  end.

Definition rfind (c : ascii) (s : string) : Z := rfind_from c (chars s) 0 (-1).

(** [s[:k]] and [s[k:]] for [0 <= k]. *)
Definition slice_to (s : string) (k : Z) : string := str (take (Z.to_nat k) (chars s)).
Definition slice_from (s : string) (k : Z) : string := str (drop (Z.to_nat k) (chars s)).

(** [os.path.sep in s] *)
Definition contains_sep (s : string) : bool := bool_decide ("/"%char ∈ chars s).

(** [s.startswith("/")] and [s.endswith("/")] *)
Definition starts_with_sep (s : string) : bool :=
  match chars s with
  | c :: _ => bool_decide (c = "/"%char)
  | [] => false
  end.
Definition ends_with_sep (s : string) : bool :=
  match last (chars s) with
  | Some c => bool_decide (c = "/"%char)
  | None => false
  end.

(** [os.path.join(a, b)] (posixpath.join with one component). *)
Definition os_path_join (a b : string) : string :=
  if starts_with_sep b then b
  else if bool_decide (a = "") || ends_with_sep a then a +:+ b
  else a +:+ "/" +:+ b.

(** [os.path.basename(p)]: [p[p.rfind('/') + 1:]]. *)
Definition os_path_basename (p : string) : string := slice_from p (rfind "/" p + 1).

(** The loop of genericpath._splitext that skips leading dots: whether some
    character of the file name before the last dot is not a dot. *)
Fixpoint has_non_dot (l : list ascii) : bool :=
  match l with
  | [] => false
  | c :: l' => if decide (c = "."%char) then has_non_dot l' else true
  end.

(** [os.path.splitext(p)] (genericpath._splitext with sep "/", no altsep,
    extsep "."). *)
Definition os_path_splitext (p : string) : string * string :=
  let sepIndex := rfind "/" p in
  let dotIndex := rfind "." p in
  if (sepIndex <? dotIndex) &&
     has_non_dot (drop (Z.to_nat (sepIndex + 1)) (take (Z.to_nat dotIndex) (chars p)))
  then (slice_to p dotIndex, slice_from p dotIndex)
  else (p, "").

(** [s.upper()] on ASCII letters. *)
Definition ascii_upper (c : ascii) : ascii :=
  let n := nat_of_ascii c in
  if (97 <=? n)%nat && (n <=? 122)%nat then ascii_of_nat (n - 32) else c.
Definition upper (s : string) : string := str (ascii_upper <$> chars s).

(** ** The environment: files, console, and the monad of the script *)

(** A printed line: the literal parts of its f-string and the values
    interpolated in it, in order. [Nl] is a newline that opens the string;
    the decorative symbols that open three of the messages are left out. *)
Inductive fpart :=
  | Nl
  | Lit (s : string)
  | FInt (n : Z)
  | FSize (sz : Z * Z)
  | FMode (m : mode)
  | FColor (c : color)
  | FExn (e : exn).

Definition line : Type := list fpart.

(** What a path holds: a file that decodes to an image, any other file, or
    a directory. *)
Inductive file :=
  | FImage (img : image)
  | FOther
  | FDir.

#[global] Instance file_eq_dec : EqDecision file.
Proof. solve_decision. Defined.

(** The state the script acts on: the file system, the paths at which the
    OS refuses a write, the answers of [glob.glob] per pattern, and the
    lines printed so far. *)
Record world := World {
  fs : gmap string file;
  unwritable : gset string;
  glob_result : string → list string;
  stdout : list line
}.

Definition M (A : Type) : Type := world → result A * world.

#[global] Instance M_ret : MRet M := λ A a w, (Ok a, w).
#[global] Instance M_bind : MBind M := λ A B f m w,
  match m w with
  | (Ok a, w') => f a w'
  | (Raise e, w') => (Raise e, w')
  end.

Definition raise {A} (e : exn) : M A := λ w, (Raise e, w).

Definition lift {A} (r : result A) : M A := λ w, (r, w).

(** [try: body / except Exception as e: handler e] *)
Definition try_except {A} (body : M A) (handler : exn → M A) : M A := λ w,
  match body w with
  | (Ok a, w') => (Ok a, w')
  | (Raise e, w') => handler e w'
  end.

Definition set_stdout (out : list line) (w : world) : world :=
  {| fs := fs w; unwritable := unwritable w;
     glob_result := glob_result w; stdout := out |}.

Definition set_fs (m : gmap string file) (w : world) : world :=
  {| fs := m; unwritable := unwritable w;
     glob_result := glob_result w; stdout := stdout w |}.

(** [print(...)] *)
Definition print (l : line) : M unit := λ w,
  (Ok (), set_stdout (stdout w ++ [l]) w).

(** [os.path.exists(p)] *)
Definition os_path_exists (p : string) : M bool := λ w,
  (Ok (bool_decide (is_Some (fs w !! p))), w).

(** [Image.open(p)] followed by the decoding of the pixel data. *)
Definition Image_open (p : string) : M image := λ w,
  match fs w !! p with
  | Some (FImage img) => (Ok img, w)
  | Some FOther => (Raise UnidentifiedImageError, w)
  | Some FDir | None => (Raise OSError, w)
  end.

(** [img.save(p, "PNG")] *)
Definition Image_save (img : image) (p : string) : M unit := λ w,
  if bool_decide (p ∈ unwritable w) || bool_decide (fs w !! p = Some FDir)
  then (Raise OSError, w)
  else (Ok (), set_fs (<[p := FImage img]> (fs w)) w).

(** [shutil.copy2(src, dst)] *)
Definition shutil_copy2 (src dst : string) : M unit := λ w,
  match fs w !! src with
  | Some FDir | None => (Raise OSError, w)
  | Some f =>
      if bool_decide (dst ∈ unwritable w) || bool_decide (fs w !! dst = Some FDir)
      then (Raise OSError, w)
      else (Ok (), set_fs (<[dst := f]> (fs w)) w)
  end.

(** [glob.glob(pattern)] *)
Definition glob_glob (pattern : string) : M (list string) := λ w,
  (Ok (glob_result w pattern), w).

(** [for x in l: s = body s x], with the loop-carried variables in [s]. *)
Fixpoint for_each {A S} (l : list A) (s : S) (body : S → A → M S) : M S :=
  match l with
  | [] => mret s
  | x :: l' => s' ← body s x; for_each l' s' body
  end.

(** ** remove_background (lines 12-96) *)

Definition remove_background (input_path : string) (output_path : option string)
    (tolerance : Z) : M bool :=
  found ← os_path_exists input_path;
  if negb found then
    print [Lit "Error: Input file '"; Lit input_path; Lit "' not found."];;
    mret false
  else
    try_except
      (img ← Image_open input_path;
       print [Lit "Original image size: "; FSize (img_size img)];;
       print [Lit "Original image mode: "; FMode (img_mode img)];;
       let img := if decide (img_mode img = RGBA) then img else convert_RGBA img in
       let data := img_data img in
       bg_color ← lift (detect_bg_color (img_size img) data);
       print [Lit "Detected background color: RGB"; FColor bg_color];;
       let '(new_data, pixels_changed) := pixel_loop bg_color tolerance data in
       let img := putdata img new_data in
       let output_path :=
         match output_path with
         | None =>
             let '(base, ext) := os_path_splitext input_path in
             base +:+ "_transparent" +:+ ext
         | Some p => p
         end in
       Image_save img output_path;;
       print [Lit "Successfully processed image!"];;
       print [Lit "Pixels changed to transparent: "; FInt pixels_changed];;
       print [Lit "Output saved to: "; Lit output_path];;
       mret true)
      (λ e,
       print [Lit "Error processing image: "; FExn e];;
       mret false).

(** ** Module-level names *)

(** The functions the module defines. *)
Inductive func := Fremove_background | Fprocess_directory | Fmain.

(** The function names bound in the module's global namespace once the
    module body has run (lines 12, 98 and 159). The imports [Image], [os],
    [sys] and [glob] are bound too; none of them, and no builtin, is named
    [remove_white_background]. *)
Definition module_globals : gmap string func :=
  {[ "remove_background" := Fremove_background;
     "process_directory" := Fprocess_directory;
     "main" := Fmain ]}.

(** The call [name(img_file, img_file, tolerance)] of line 145: the name is
    looked up when the call is evaluated, and an unbound name raises
    NameError. Of the module's functions only [remove_background] is a
    per-file processor; a call that resolved to another one is not followed
    here. *)
Definition call_global (name : string) (input_path output_path : string)
    (tolerance : Z) : M bool :=
  match module_globals !! name with
  | None => raise (NameError name)
  | Some Fremove_background => remove_background input_path (Some output_path) tolerance
  | Some _ => raise TypeError
  end.

(** ** process_directory (lines 98-157) *)

(** Line 112. *)
Definition image_extensions : list string :=
  ["*.png"; "*.jpg"; "*.jpeg"; "*.bmp"; "*.tiff"].

(** Lines 134-142: the optional backup of one file. *)
Definition make_backup (backup : bool) (img_file : string) : M unit :=
  if backup then
    let backup_path := img_file +:+ ".backup" in
    found ← os_path_exists backup_path;
    if negb found then
      try_except
        (shutil_copy2 img_file backup_path;;
         print [Lit "Backup created: "; Lit (os_path_basename backup_path)])
        (λ e, print [Lit "Warning: Could not create backup: "; FExn e])
    else mret ()
  else mret ().

(** Lines 130-148: one iteration of the batch loop, on [success_count]. *)
Definition process_one (tolerance : Z) (backup : bool)
    (success_count : Z) (img_file : string) : M Z :=
  print [Nl; Lit "--- Processing: "; Lit (os_path_basename img_file); Lit " ---"];;
  make_backup backup img_file;;
  ok ← call_global "remove_white_background" img_file img_file tolerance;
  if (ok : bool) then mret (success_count + 1)
  else
    print [Lit "Failed to process: "; Lit (os_path_basename img_file)];;
    mret success_count.

Definition process_directory (directory_path : string) (tolerance : Z)
    (backup : bool) : M bool :=
  found ← os_path_exists directory_path;
  if negb found then
    print [Lit "Error: Directory '"; Lit directory_path; Lit "' not found."];;
    mret false
  else
    image_files ← for_each image_extensions []
      (λ image_files ext,
         lower ← glob_glob (os_path_join directory_path ext);
         upper ← glob_glob (os_path_join directory_path (upper ext));
         mret (image_files ++ lower ++ upper));
    if bool_decide (image_files = []) then
      print [Lit "No image files found in '"; Lit directory_path; Lit "'"];;
      mret false
    else
      print [Nl; Lit "Found "; FInt (len image_files); Lit " image(s) to process:"];;
      for_each image_files ()
        (λ _ img_file, print [Lit "  - "; Lit (os_path_basename img_file)]);;
      success_count ← for_each image_files 0 (process_one tolerance backup);
      print [Nl; Lit "Processing complete!"];;
      print [Lit "Successfully processed: "; FInt success_count; Lit "/";
             FInt (len image_files); Lit " images"];;
      (if backup then
         print [Nl; Lit "Backup files created with '.backup' extension"];;
         print [Lit "You can delete them if you're satisfied with the results"]
       else mret ());;
      mret (0 <? success_count).

(** ** main (lines 159-197) *)

Section Main.

(** The builtin [int(s)] on a [str]: [None] stands for ValueError. *)
Variable int : string → option Z.

(** Lines 163 and 173-177: the tolerance the run will use. *)
Definition parse_tolerance (argv : list string) : M Z :=
  let tolerance := 30 in
  if 2 <? len argv then
    arg ← lift (getitem argv 2);
    match int arg with
    | Some n => mret n
    | None =>
        print [Lit "Warning: Invalid tolerance value, using default 30"];;
        mret tolerance
    end
  else mret tolerance.

(** Lines 179-183: a bare file name is looked up under "assets". *)
Definition cli_filepath (filename : string) : string :=
  if negb (contains_sep filename) then os_path_join "assets" filename
  else filename.

(** Lines 185-197: the processing of the file. *)
Definition main_process (filename : string) (tolerance : Z) : M unit :=
  let filepath := cli_filepath filename in
  found ← os_path_exists filepath;
  if negb found then
    print [Lit "Error: File '"; Lit filepath; Lit "' not found."]
  else
    print [Lit "Processing: "; Lit filepath];;
    print [Lit "Tolerance: "; FInt tolerance];;
    print [Lit "No backup will be created - overwriting original file"];;
    success ← remove_background filepath (Some filepath) tolerance;
    if (success : bool) then print [Nl; Lit "Image processing completed successfully!"]
    else print [Nl; Lit "Image processing failed."].

Definition main (argv : list string) : M unit :=
  if len argv <? 2 then
    print [Lit "Usage: python remove_white_background.py <filename> [tolerance]"];;
    print [Lit "Example: python remove_white_background.py zombie.png 30"]
  else
    filename ← lift (getitem argv 1);
    tolerance ← parse_tolerance argv;
    main_process filename tolerance.

End Main.

(** A decimal reader used to run [main] on examples: an optional sign and
    ASCII digits, on which it agrees with the builtin [int]. *)
Fixpoint digits_value (l : list ascii) (acc : Z) : option Z :=
  match l with
  | [] => Some acc
  | c :: l' =>
      match Ascii.is_nat c with
      | Some d => digits_value l' (10 * acc + Z.of_nat d)
      | None => None
      end
  end.

Definition int_decimal (s : string) : option Z :=
  match chars s with
  | [] => None
  | c :: l =>
      if decide (c = "-"%char) then
        match l with [] => None | _ => Z.opp <$> digits_value l 0 end
      else if decide (c = "+"%char) then
        match l with [] => None | _ => digits_value l 0 end
      else digits_value (c :: l) 0
  end.

(** ** Specification-side definitions *)

(** The flattened row-major index of the pixel at column [x], row [y]. *)
Definition flat_index (size : Z * Z) (x y : Z) : Z := y * size.1 + x.

(** The pixel the specification prescribes for [item]: alpha 0 within the
    tolerance, the alpha the pixel carried otherwise. *)
Definition spec_pixel (bg_color : color) (tolerance : Z) (item : pixel) : pixel :=
  let '(r, g, b) := rgb item in
  let '(bg_r, bg_g, bg_b) := bg_color in
  if Z.abs (r - bg_r) + Z.abs (g - bg_g) + Z.abs (b - bg_b) <=? tolerance
  then Px4 r g b 0
  else Px4 r g b (alpha item).

(** The number of pixels within the tolerance of the background colour. *)
Definition spec_count (bg_color : color) (tolerance : Z) (data : list pixel) : Z :=
  len (filter (λ item, color_distance item bg_color ≤ tolerance) data).

(** The number of times [c] occurs among the samples. *)
Definition occurrences (c : color) (samples : list color) : nat :=
  length (filter (λ x, x = c) samples).

(** The specification's majority vote: the first sample, in sampling order,
    that no sample outnumbers. *)
Definition spec_majority (samples : list color) : option color :=
  find (λ c, forallb (λ d, (occurrences d samples <=? occurrences c samples)%nat) samples)
       samples.

(** [writes_only p m]: running [m] leaves every path other than [p] as it
    was. *)
Definition writes_only (p : string) {A} (m : M A) : Prop :=
  ∀ w q, q ≠ p → fs (m w).2 !! q = fs w !! q.

(** The files the batch finds (lines 115-118): for each extension in turn,
    the matches of the pattern and then those of its upper-case form. *)
Definition found_images (w : world) (directory_path : string) : list string :=
  foldl (λ image_files ext,
           image_files ++ glob_result w (os_path_join directory_path ext)
                       ++ glob_result w (os_path_join directory_path (upper ext)))
        [] image_extensions.

(** The warning of line 177. *)
Definition tolerance_warning : line :=
  [Lit "Warning: Invalid tolerance value, using default 30"].

(** The path [remove_background] writes to (lines 81-83). *)
Definition resolved_output (input_path : string) (output_path : option string) : string :=
  match output_path with
  | None => (os_path_splitext input_path).1 +:+ "_transparent" +:+ (os_path_splitext input_path).2
  | Some p => p
  end.

(** The six lines a successful [remove_background] prints. *)
Definition success_lines (img : image) (bg_color : color) (pixels_changed : Z)
    (output_path : string) : list line :=
  [ [Lit "Original image size: "; FSize (img_size img)];
    [Lit "Original image mode: "; FMode (img_mode img)];
    [Lit "Detected background color: RGB"; FColor bg_color];
    [Lit "Successfully processed image!"];
    [Lit "Pixels changed to transparent: "; FInt pixels_changed];
    [Lit "Output saved to: "; Lit output_path] ].

(** ** Sample inputs *)

(** The 2x2 scenario: two white corners, a black one and a dark grey one. *)
Definition sample_rgb : image :=
  Image RGB (2, 2) [Px3 255 255 255; Px3 255 255 255; Px3 0 0 0; Px3 10 10 10].

(** A 3x1 image with an alpha channel; the second pixel is at distance 30
    from the first and the third at distance 31. *)
Definition sample_rgba : image :=
  Image RGBA (3, 1) [Px4 200 200 200 128; Px4 210 210 190 77; Px4 210 210 189 77].

Definition no_glob : string → list string := λ _, [].

Definition sample_world : world :=
  World {[ "a.png" := FImage sample_rgb; "b.png" := FImage sample_rgba ]} ∅ no_glob [].

(** A directory with two images, as [glob.glob] lists them for "*.png". *)
Definition batch_glob : string → list string := λ pattern,
  if decide (pattern = "d/*.png") then ["d/a.png"; "d/b.png"] else [].

Definition batch_world : world :=
  World {[ "d" := FDir; "d/a.png" := FImage sample_rgb; "d/b.png" := FImage sample_rgba ]}
        ∅ batch_glob [].

(** The world of a command-line run on "zombie.png". *)
Definition cli_world : world :=
  World {[ "assets/zombie.png" := FImage sample_rgb ]} ∅ no_glob [].

(** Settles a decidable closed proposition by evaluating its decision
    procedure. *)
Ltac decide_by_compute := apply (bool_decide_unpack _); vm_compute; exact I.

(** ** Further definitions used by the properties below *)

(** The world after the lines [ls] have been printed. *)
Definition add_lines (ls : list line) (w : world) : world :=
  set_stdout (stdout w ++ ls) w.

(** The pixel sequence the loop runs over (lines 33-37): the image's own
    when its mode is RGBA, the converted one otherwise. *)
Definition working_data (img : image) : list pixel :=
  img_data (if decide (img_mode img = RGBA) then img else convert_RGBA img).

(** A pixel with four channels. *)
Definition has_alpha (p : pixel) : bool :=
  match p with
  | Px4 _ _ _ _ => true
  | Px3 _ _ _ => false
  end.

(** All three colour channels are 8-bit values. *)
Definition eight_bit (p : pixel) : Prop :=
  let '(r, g, b) := rgb p in
  0 ≤ r ≤ 255 ∧ 0 ≤ g ≤ 255 ∧ 0 ≤ b ≤ 255.

(** The four corner pixels of a pixel sequence, when they are all there. *)
Definition corner_pixels (size : Z * Z) (data : list pixel) : option (list pixel) :=
  match getitems data (corner_indices size) with
  | Ok corners => Some corners
  | Raise _ => None
  end.

(** The tolerance a command line ends up with, and the warning it prints
    on the way, from the arguments after the file name (lines 163 and
    173-177). *)
Definition cli_tolerance (int : string → option Z) (rest : list string) : Z :=
  match rest with
  | arg :: _ => default 30 (int arg)
  | [] => 30
  end.

Definition cli_warning (int : string → option Z) (rest : list string) : list line :=
  match rest with
  | arg :: _ => match int arg with None => [tolerance_warning] | Some _ => [] end
  | [] => []
  end.

(** The three lines [main] prints before it processes the file. *)
Definition cli_header (filepath : string) (tolerance : Z) : list line :=
  [ [Lit "Processing: "; Lit filepath];
    [Lit "Tolerance: "; FInt tolerance];
    [Lit "No backup will be created - overwriting original file"] ].

(** The error line of lines 94-96. *)
Definition error_line (e : exn) : line := [Lit "Error processing image: "; FExn e].

(** Files that do not decode, an image without pixels, and a path that
    cannot be written. *)
Definition empty_image : image := Image RGB (0, 0) [].

Definition faulty_world : world :=
  World {[ "junk.png" := FOther; "./junk.png" := FOther; "folder" := FDir;
           "empty.png" := FImage empty_image;
           "a.png" := FImage sample_rgb; "locked.png" := FImage sample_rgb ]}
        {[ "locked.png"; "a.png.backup" ]} no_glob [].

(** A directory whose first image already has a backup. *)
Definition backup_world : world :=
  World {[ "d" := FDir; "d/a.png" := FImage sample_rgba;
           "d/a.png.backup" := FImage sample_rgb; "d/b.png" := FImage sample_rgb ]}
        ∅ batch_glob [].

(** ** The pixel loop *)

Lemma spec_pixel_rgb bg tol item : rgb (spec_pixel bg tol item) = rgb item.
Proof.
  unfold spec_pixel. destruct (rgb item) as [[r g] b] eqn:E.
  destruct bg as [[br bgn] bb]. by case_match.
Qed.

Lemma loop_body_spec bg tol new_data pixels_changed item :
  loop_body bg tol (new_data, pixels_changed) item =
    (new_data ++ [spec_pixel bg tol item],
     pixels_changed + (if bool_decide (color_distance item bg ≤ tol) then 1 else 0)).
Proof.
  unfold loop_body, spec_pixel, color_distance.
  destruct bg as [[br bgn] bb]. destruct item as [r g b|r g b a]; simpl.
  all: destruct (Z.leb_spec (Z.abs (r - br) + Z.abs (g - bgn) + Z.abs (b - bb)) tol).
  all: first [rewrite bool_decide_eq_true_2 by lia
             |rewrite bool_decide_eq_false_2 by lia].
  all: f_equal; lia.
Qed.

(** The loop appends one prescribed pixel per input pixel to whatever it
    started from, and adds the number of background pixels to the count. *)
Lemma loop_from bg tol data : ∀ new_data pixels_changed,
  foldl (loop_body bg tol) (new_data, pixels_changed) data =
    (new_data ++ (spec_pixel bg tol <$> data),
     pixels_changed + spec_count bg tol data).
Proof.
  unfold spec_count, len.
  induction data as [|item data IH]; intros nd pc; cbn [foldl fmap list_fmap].
  - rewrite app_nil_r. f_equal. simpl. lia.
  - rewrite loop_body_spec, IH, <- app_assoc. f_equal.
    rewrite filter_cons. case_bool_decide; case_decide; simpl; try lia; done.
Qed.

Lemma pixel_loop_spec bg tol data :
  pixel_loop bg tol data = (spec_pixel bg tol <$> data, spec_count bg tol data).
Proof. unfold pixel_loop. rewrite loop_from. simpl. f_equal. Qed.

(** ** Sequences and the corner samples *)

Lemma getitem_in_range {A} (l : list A) (i : Z) :
  0 ≤ i < len l → ∃ x, l !! Z.to_nat i = Some x ∧ getitem l i = Ok x.
Proof.
  unfold len. intros Hi. unfold getitem.
  destruct (Z.ltb_spec i 0); [lia|].
  destruct (Z.ltb_spec i 0); [lia|].
  destruct (Z.leb_spec (Z.of_nat (length l)) i); [lia|]. cbn [orb].
  destruct (lookup_lt_is_Some_2 l (Z.to_nat i)) as [x Hx]; [lia|].
  exists x. by rewrite Hx.
Qed.

Lemma corner_indices_in_range (w h : Z) (data : list pixel) :
  1 ≤ w → 1 ≤ h → len data = w * h →
  Forall (λ i, 0 ≤ i < len data) (corner_indices (w, h)).
Proof.
  intros Hw Hh Hlen. rewrite Hlen. unfold corner_indices. cbn [fst snd].
  repeat constructor; nia.
Qed.

Lemma occurrences_cons (c x : color) (l : list color) :
  occurrences c (x :: l) =
    if decide (x = c) then S (occurrences c l) else occurrences c l.
Proof. unfold occurrences. rewrite filter_cons. by case_decide. Qed.

Lemma occurrences_nil (c : color) : occurrences c [] = 0%nat.
Proof. done. Qed.

(** The tally of the four samples agrees with the specification's vote,
    whichever samples coincide. *)
Lemma most_common_four (a b c d : color) :
  (λ top, top.1) <$> head (most_common_1 (Counter [a; b; c; d]))
  = spec_majority [a; b; c; d].
Proof.
  unfold Counter, spec_majority. cbn [foldl counter_add find forallb].
  rewrite !occurrences_cons, !occurrences_nil.
  destruct (decide (b = a)) as [->|Hba];
  destruct (decide (c = a)) as [->|Hca];
  destruct (decide (d = a)) as [->|Hda];
  cbn [counter_add];
  repeat (case_decide; simplify_eq; cbn [counter_add]);
  done.
Qed.

Lemma getitems_corners (w h : Z) (data : list pixel) :
  1 ≤ w → 1 ≤ h → len data = w * h →
  ∃ tl tr bl br,
    data !! Z.to_nat (flat_index (w, h) 0 0) = Some tl ∧
    data !! Z.to_nat (flat_index (w, h) (w - 1) 0) = Some tr ∧
    data !! Z.to_nat (flat_index (w, h) 0 (h - 1)) = Some bl ∧
    data !! Z.to_nat (flat_index (w, h) (w - 1) (h - 1)) = Some br ∧
    getitems data (corner_indices (w, h)) = Ok [tl; tr; bl; br].
Proof.
  intros Hw Hh Hlen.
  pose proof (corner_indices_in_range w h data Hw Hh Hlen) as Hin.
  unfold corner_indices in Hin. cbn [fst snd] in Hin.
  apply Forall_cons in Hin as [H0 Hin]. apply Forall_cons in Hin as [H1 Hin].
  apply Forall_cons in Hin as [H2 Hin]. apply Forall_cons in Hin as [H3 _].
  destruct (getitem_in_range data _ H0) as (tl & Ltl & Gtl).
  destruct (getitem_in_range data _ H1) as (tr & Ltr & Gtr).
  destruct (getitem_in_range data _ H2) as (bl & Lbl & Gbl).
  destruct (getitem_in_range data _ H3) as (br & Lbr & Gbr).
  exists tl, tr, bl, br. unfold flat_index. cbn [fst snd].
  replace (0 * w + 0) with 0 by lia.
  replace (0 * w + (w - 1)) with (w - 1) by lia.
  replace ((h - 1) * w + 0) with (w * (h - 1)) by lia.
  replace ((h - 1) * w + (w - 1)) with (w * h - 1) by lia.
  repeat split; try done.
  unfold corner_indices. cbn [getitems fst snd].
  rewrite Gtl, Gtr, Gbl, Gbr. done.
Qed.

(** What [find] returns is the first element that passes the test. *)
Lemma find_first {A} (P : A → bool) (l : list A) (x : A) :
  find P l = Some x →
  P x = true ∧ ∃ pre post, l = pre ++ x :: post ∧ Forall (λ e, P e = false) pre.
Proof.
  induction l as [|y l IH]; [done|]. cbn [find].
  destruct (P y) eqn:Py.
  - intros [= ->]. split; [done|]. exists [], l. by split.
  - intros Hf. destruct (IH Hf) as (Px & pre & post & -> & Hpre).
    split; [done|]. exists (y :: pre), post. split; [done|]. by constructor.
Qed.

(** The vote returns a sample that no sample outnumbers, and every sample
    standing before its first occurrence occurs strictly less often. *)
Lemma spec_majority_first (samples : list color) (bg : color) :
  spec_majority samples = Some bg →
  bg ∈ samples ∧
  (∀ s, s ∈ samples → (occurrences s samples ≤ occurrences bg samples)%nat) ∧
  ∃ pre post, samples = pre ++ bg :: post ∧
    ∀ e, e ∈ pre → (occurrences e samples < occurrences bg samples)%nat.
Proof.
  unfold spec_majority. intros Hf.
  destruct (find_first _ _ _ Hf) as (Hmax & pre & post & Heq & Hpre).
  rewrite forallb_forall in Hmax.
  assert (Hle : ∀ s, s ∈ samples →
            (occurrences s samples ≤ occurrences bg samples)%nat).
  { intros s Hs. apply Nat.leb_le, Hmax. by apply list_elem_of_In. }
  split; [|split; [done|]].
  - rewrite Heq. set_solver.
  - exists pre, post. split; [done|]. intros e He.
    rewrite Forall_forall in Hpre. specialize (Hpre e He).
    destruct (Nat.lt_ge_cases (occurrences e samples) (occurrences bg samples))
      as [|Hge]; [done|].
    exfalso. apply not_true_iff_false in Hpre. apply Hpre.
    apply forallb_forall. intros d Hd. apply Nat.leb_le.
    etrans; [apply Hle; by apply list_elem_of_In|done].
Qed.

Lemma detect_bg_color_spec (w h : Z) (data : list pixel) :
  1 ≤ w → 1 ≤ h → len data = w * h →
  ∃ tl tr bl br bg,
    data !! Z.to_nat (flat_index (w, h) 0 0) = Some tl ∧
    data !! Z.to_nat (flat_index (w, h) (w - 1) 0) = Some tr ∧
    data !! Z.to_nat (flat_index (w, h) 0 (h - 1)) = Some bl ∧
    data !! Z.to_nat (flat_index (w, h) (w - 1) (h - 1)) = Some br ∧
    spec_majority [rgb tl; rgb tr; rgb bl; rgb br] = Some bg ∧
    detect_bg_color (w, h) data = Ok bg.
Proof.
  intros Hw Hh Hlen.
  destruct (getitems_corners w h data Hw Hh Hlen)
    as (tl & tr & bl & br & Ltl & Ltr & Lbl & Lbr & Hget).
  pose proof (most_common_four (rgb tl) (rgb tr) (rgb bl) (rgb br)) as Hmc.
  unfold detect_bg_color. rewrite Hget. cbn [mbind result_bind fmap list_fmap].
  destruct (most_common_1 (Counter [rgb tl; rgb tr; rgb bl; rgb br]))
    as [|top rest] eqn:Emc.
  - exfalso. unfold Counter in Emc. cbn [foldl counter_add] in Emc.
    repeat (case_decide; cbn [counter_add] in Emc); discriminate.
  - cbn [head fmap option_fmap option_map] in Hmc.
    exists tl, tr, bl, br, top.1. repeat split; try done.
Qed.

(** ** The transform as a whole *)

Lemma rgb_to_rgba p : rgb (to_rgba p) = rgb p.
Proof. by destruct p. Qed.

Lemma alpha_to_rgba p : alpha (to_rgba p) = alpha p.
Proof. by destruct p. Qed.

Lemma color_distance_to_rgba p bg : color_distance (to_rgba p) bg = color_distance p bg.
Proof. unfold color_distance. by rewrite rgb_to_rgba. Qed.

Lemma spec_pixel_to_rgba bg tol p : spec_pixel bg tol (to_rgba p) = spec_pixel bg tol p.
Proof. unfold spec_pixel. by rewrite rgb_to_rgba, alpha_to_rgba. Qed.

Lemma spec_count_to_rgba bg tol data :
  spec_count bg tol (to_rgba <$> data) = spec_count bg tol data.
Proof.
  unfold spec_count, len. f_equal.
  induction data as [|p data IH]; [done|].
  rewrite fmap_cons, !filter_cons, color_distance_to_rgba.
  case_decide; simpl; by rewrite IH.
Qed.

(** The pixel sequence the transform works on: the image's own when its
    mode is RGBA, the converted one otherwise. *)
Lemma transform_unfold img tol :
  transform img tol =
    (let data := if decide (img_mode img = RGBA) then img_data img
                 else to_rgba <$> img_data img in
     bg_color ← detect_bg_color (img_size img) data;
     Ok (bg_color,
         Image RGBA (img_size img) (spec_pixel bg_color tol <$> data),
         spec_count bg_color tol data)).
Proof.
  unfold transform. case_decide as Hm; cbn zeta.
  - destruct (detect_bg_color _ _) as [bg|e]; [|done]. cbn [mbind result_bind].
    rewrite pixel_loop_spec. unfold putdata. by rewrite Hm.
  - cbn [convert_RGBA img_size img_data].
    destruct (detect_bg_color _ _) as [bg|e]; [|done]. cbn [mbind result_bind].
    by rewrite pixel_loop_spec.
Qed.

(** On a well-formed image the transform returns: the background colour is
    the vote of the four corner colours, every pixel is replaced by the
    prescribed one, and the count is the number of background pixels. *)
Lemma transform_ok img tol :
  image_wf img →
  ∃ tl tr bl br bg,
    let '(w, h) := img_size img in
    img_data img !! Z.to_nat (flat_index (w, h) 0 0) = Some tl ∧
    img_data img !! Z.to_nat (flat_index (w, h) (w - 1) 0) = Some tr ∧
    img_data img !! Z.to_nat (flat_index (w, h) 0 (h - 1)) = Some bl ∧
    img_data img !! Z.to_nat (flat_index (w, h) (w - 1) (h - 1)) = Some br ∧
    spec_majority [rgb tl; rgb tr; rgb bl; rgb br] = Some bg ∧
    transform img tol =
      Ok (bg, Image RGBA (img_size img) (spec_pixel bg tol <$> img_data img),
          spec_count bg tol (img_data img)).
Proof.
  destruct img as [m [w h] data]. unfold image_wf. cbn [img_size img_data fst snd].
  intros (Hw & Hh & Hlen). rewrite transform_unfold. cbn [img_mode img_size img_data].
  case_decide as Hm; cbn zeta.
  - destruct (detect_bg_color_spec w h data Hw Hh Hlen)
      as (tl & tr & bl & br & bg & Ltl & Ltr & Lbl & Lbr & Hmaj & Hdet).
    exists tl, tr, bl, br, bg. rewrite Hdet. by repeat split.
  - destruct (detect_bg_color_spec w h (to_rgba <$> data) Hw Hh)
      as (tl & tr & bl & br & bg & Ltl & Ltr & Lbl & Lbr & Hmaj & Hdet).
    { unfold len. by rewrite length_fmap. }
    rewrite list_lookup_fmap in Ltl, Ltr, Lbl, Lbr.
    apply fmap_Some in Ltl as (tl' & Ltl & ->).
    apply fmap_Some in Ltr as (tr' & Ltr & ->).
    apply fmap_Some in Lbl as (bl' & Lbl & ->).
    apply fmap_Some in Lbr as (br' & Lbr & ->).
    rewrite !rgb_to_rgba in Hmaj.
    exists tl', tr', bl', br', bg. rewrite Hdet. cbn [mbind result_bind].
    rewrite spec_count_to_rgba, <- list_fmap_compose.
    repeat split; try done. do 4 f_equal.
    apply list_fmap_ext. intros i p _. apply spec_pixel_to_rgba.
Qed.

(** ** Paths *)

Lemma str_app (a b : list ascii) : str (a ++ b) = str a +:+ str b.
Proof.
  unfold str. induction a as [|c a IH]; [done|].
  change (String c (String.string_of_list_ascii (a ++ b)) =
          String c (String.string_of_list_ascii a +:+ String.string_of_list_ascii b)).
  by rewrite IH.
Qed.

Lemma str_chars (s : string) : str (chars s) = s.
Proof. apply String.string_of_list_ascii_of_string. Qed.

Lemma app_empty_r (s : string) : s +:+ "" = s.
Proof.
  induction s as [|c s IH]; [done|].
  change (String c (s +:+ "") = String c s). by rewrite IH.
Qed.

Lemma length_app (a b : string) :
  String.length (a +:+ b) = (String.length a + String.length b)%nat.
Proof.
  induction a as [|c a IH]; [done|].
  change (S (String.length (a +:+ b)) = S (String.length a + String.length b)).
  by rewrite IH.
Qed.

(** [splitext] cuts the path in two: root and extension put together give
    the path back. *)
Lemma os_path_splitext_app (p : string) :
  (os_path_splitext p).1 +:+ (os_path_splitext p).2 = p.
Proof.
  unfold os_path_splitext. case_match; cbn [fst snd].
  - unfold slice_to, slice_from. by rewrite <- str_app, take_drop, str_chars.
  - apply app_empty_r.
Qed.

(** The default output path is never the input path. *)
Lemma resolved_output_None_ne (input_path : string) :
  resolved_output input_path None ≠ input_path.
Proof.
  unfold resolved_output. intros Heq.
  rewrite <- (os_path_splitext_app input_path) in Heq at 3.
  apply (inj _) in Heq. apply (f_equal String.length) in Heq.
  rewrite length_app in Heq. cbn in Heq. lia.
Qed.

(** ** Running [remove_background] *)

(** An exception handler that returns makes the whole [try] return. *)
Lemma try_except_returns {A} (body : M A) (handler : exn → M A) (w : world) :
  (∀ e w0, ∃ a, (handler e w0).1 = Ok a) →
  ∃ a, (try_except body handler w).1 = Ok a.
Proof.
  intros Hh. unfold try_except. destruct (body w) as [[a|e] w']; [by exists a|].
  apply Hh.
Qed.

(** [remove_background] returns a boolean whatever happens inside it. *)
Lemma remove_background_never_raises input_path output_path tolerance w :
  ∃ b : bool, (remove_background input_path output_path tolerance w).1 = Ok b.
Proof.
  unfold remove_background.
  unfold mbind at 1. unfold M_bind. unfold os_path_exists at 1.
  destruct (bool_decide _); cbn [negb].
  - apply try_except_returns. intros e w0. by exists false.
  - by exists false.
Qed.

(** A successful run: the image is read, transformed, written to the
    resolved output path, and six lines are printed. *)
Lemma remove_background_success input_path output_path tolerance w img bg out n :
  fs w !! input_path = Some (FImage img) →
  transform img tolerance = Ok (bg, out, n) →
  resolved_output input_path output_path ∉ unwritable w →
  fs w !! resolved_output input_path output_path ≠ Some FDir →
  remove_background input_path output_path tolerance w =
    (Ok true,
     World (<[resolved_output input_path output_path := FImage out]> (fs w))
           (unwritable w) (glob_result w)
           (stdout w ++ success_lines img bg n
                          (resolved_output input_path output_path))).
Proof.
  intros Hin Htr Hw Hd. unfold transform in Htr.
  assert (Hout : (match output_path with
                  | Some p => p
                  | None => let '(base, ext) := os_path_splitext input_path in
                            base +:+ "_transparent" +:+ ext
                  end) = resolved_output input_path output_path).
  { unfold resolved_output. destruct output_path; [done|].
    by destruct (os_path_splitext input_path). }
  unfold remove_background. rewrite Hout.
  unfold mbind, M_bind, os_path_exists, try_except, Image_open.
  rewrite Hin, bool_decide_eq_true_2 by eauto. cbn [negb]. cbv beta iota.
  rewrite Hin. unfold print at 1 2. cbv beta iota.
  unfold lift at 1.
  destruct (detect_bg_color _ _) as [bg'|e]; [|done].
  cbn [mbind result_bind] in Htr.
  unfold print at 1. cbv beta iota.
  destruct (pixel_loop _ _ _) as [new_data pixels_changed].
  injection Htr as -> <- ->.
  unfold Image_save, print, set_fs, set_stdout, mret, M_ret.
  cbn [fs stdout unwritable glob_result].
  rewrite (bool_decide_eq_false_2 _ Hw), (bool_decide_eq_false_2 _ Hd).
  cbn [orb fs stdout unwritable glob_result]. unfold success_lines. by rewrite <- !app_assoc.
Qed.

(** ** Which files a computation can touch *)

Section Frame.
Context (p : string).

Lemma writes_only_ret {A} (a : A) : writes_only p (mret a).
Proof. by intros w q _. Qed.

Lemma writes_only_bind {A B} (m : M A) (f : A → M B) :
  writes_only p m → (∀ a, writes_only p (f a)) → writes_only p (m ≫= f).
Proof.
  intros Hm Hf w q Hq. unfold mbind, M_bind.
  specialize (Hm w q Hq). destruct (m w) as [[a|e] w']; cbn [snd] in *.
  - by rewrite Hf.
  - done.
Qed.

Lemma writes_only_try {A} (body : M A) (handler : exn → M A) :
  writes_only p body → (∀ e, writes_only p (handler e)) →
  writes_only p (try_except body handler).
Proof.
  intros Hm Hf w q Hq. unfold try_except.
  specialize (Hm w q Hq). destruct (body w) as [[a|e] w']; cbn [snd] in *.
  - done.
  - by rewrite Hf.
Qed.

Lemma writes_only_print l : writes_only p (print l).
Proof. by intros w q _. Qed.

Lemma writes_only_lift {A} (r : result A) : writes_only p (lift r).
Proof. by intros w q _. Qed.

Lemma writes_only_raise {A} e : writes_only p (@raise A e).
Proof. by intros w q _. Qed.

Lemma writes_only_exists q' : writes_only p (os_path_exists q').
Proof. by intros w q _. Qed.

Lemma writes_only_open q' : writes_only p (Image_open q').
Proof. intros w q _. unfold Image_open. by repeat case_match. Qed.

Lemma writes_only_save img : writes_only p (Image_save img p).
Proof.
  intros w q Hq. unfold Image_save. case_match; [done|].
  cbn [snd set_fs fs]. by rewrite lookup_insert_ne.
Qed.
End Frame.

Ltac writes_only_step :=
  first
    [ apply writes_only_bind; [|intros ?]
    | apply writes_only_try; [|intros ?]
    | apply writes_only_print
    | apply writes_only_lift
    | apply writes_only_exists
    | apply writes_only_open
    | apply writes_only_save
    | apply writes_only_raise
    | apply writes_only_ret ].

(** [remove_background] touches no file but the one at its resolved output
    path, whether it succeeds or fails. *)
Lemma remove_background_writes_only input_path output_path tolerance :
  writes_only (resolved_output input_path output_path)
    (remove_background input_path output_path tolerance).
Proof.
  assert (Hout : (match output_path with
                  | Some p => p
                  | None => let '(base, ext) := os_path_splitext input_path in
                            base +:+ "_transparent" +:+ ext
                  end) = resolved_output input_path output_path).
  { unfold resolved_output. destruct output_path; [done|].
    by destruct (os_path_splitext input_path). }
  unfold remove_background. rewrite Hout.
  writes_only_step; [writes_only_step|].
  destruct a; cbn [negb]; repeat writes_only_step.
  destruct (pixel_loop _ _ _) as [new_data pixels_changed].
  repeat writes_only_step.
Qed.

(** * The claims *)

Lemma sample_rgb_wf : image_wf sample_rgb.
Proof. unfold image_wf. cbn. lia. Defined.

Lemma sample_rgba_wf : image_wf sample_rgba.
Proof. unfold image_wf. cbn. lia. Defined.



(** C2. On an image of width and height at least 1, detection reads
    exactly the pixels at (0,0), (Width-1,0), (0,Height-1) and
    (Width-1,Height-1), keeps their RGB triples, and returns the triple that
    occurs most often among the four; among equally frequent triples it
    returns the one met first in the order top-left, top-right, bottom-left,
    bottom-right. *)
Theorem corner_majority (w h : Z) (data : list pixel) :
  1 ≤ w → 1 ≤ h → len data = w * h →
  ∃ tl tr bl br bg,
    data !! Z.to_nat (flat_index (w, h) 0 0) = Some tl ∧
    data !! Z.to_nat (flat_index (w, h) (w - 1) 0) = Some tr ∧
    data !! Z.to_nat (flat_index (w, h) 0 (h - 1)) = Some bl ∧
    data !! Z.to_nat (flat_index (w, h) (w - 1) (h - 1)) = Some br ∧
    let samples := [rgb tl; rgb tr; rgb bl; rgb br] in
    detect_bg_color (w, h) data = Ok bg ∧
    spec_majority samples = Some bg ∧
    (∀ s, s ∈ samples → (occurrences s samples ≤ occurrences bg samples)%nat) ∧
    ∃ pre post, samples = pre ++ bg :: post ∧
      ∀ e, e ∈ pre → (occurrences e samples < occurrences bg samples)%nat.
Proof.
  intros Hw Hh Hlen.
  destruct (detect_bg_color_spec w h data Hw Hh Hlen)
    as (tl & tr & bl & br & bg & Ltl & Ltr & Lbl & Lbr & Hmaj & Hdet).
  exists tl, tr, bl, br, bg. do 4 (split; [done|]). cbn zeta.
  split; [done|]. split; [done|].
  by destruct (spec_majority_first _ _ Hmaj) as (_ & ? & ?).
Qed.

Lemma corner_majority_witness :
  1 ≤ 2 ∧ len (img_data sample_rgb) = 2 * 2 ∧
  ∃ tl tr bl br bg,
    img_data sample_rgb !! Z.to_nat (flat_index (2, 2) 0 0) = Some tl ∧
    img_data sample_rgb !! Z.to_nat (flat_index (2, 2) (2 - 1) 0) = Some tr ∧
    img_data sample_rgb !! Z.to_nat (flat_index (2, 2) 0 (2 - 1)) = Some bl ∧
    img_data sample_rgb !! Z.to_nat (flat_index (2, 2) (2 - 1) (2 - 1)) = Some br ∧
    let samples := [rgb tl; rgb tr; rgb bl; rgb br] in
    detect_bg_color (2, 2) (img_data sample_rgb) = Ok bg ∧
    spec_majority samples = Some bg ∧
    (∀ s, s ∈ samples → (occurrences s samples ≤ occurrences bg samples)%nat) ∧
    ∃ pre post, samples = pre ++ bg :: post ∧
      ∀ e, e ∈ pre → (occurrences e samples < occurrences bg samples)%nat.
Proof.
  assert (H2 : 1 ≤ 2) by lia.
  assert (Hl : len (img_data sample_rgb) = 2 * 2) by reflexivity.
  split; [exact H2|]. split; [exact Hl|].
  exact (corner_majority 2 2 (img_data sample_rgb) H2 H2 Hl).
Defined.

(** The two detection scenarios of the specification: three white corners
    against one black give white; four distinct corners give the top-left
    one. *)
Example detect_three_against_one :
  detect_bg_color (2, 2) [Px3 255 255 255; Px3 255 255 255; Px3 0 0 0; Px3 255 255 255]
  = Ok (255, 255, 255).
Proof. reflexivity. Qed.

Example detect_all_distinct :
  detect_bg_color (2, 2) [Px3 1 1 1; Px3 2 2 2; Px3 3 3 3; Px3 4 4 4] = Ok (1, 1, 1).
Proof. reflexivity. Qed.

(** C4. The transform keeps the RGB channels of every pixel and the width
    and height of the image; only alpha may change. *)
Theorem rgb_and_size_preserved (img : image) (tolerance : Z) :
  image_wf img →
  ∃ bg out n,
    transform img tolerance = Ok (bg, out, n) ∧
    img_size out = img_size img ∧
    length (img_data out) = length (img_data img) ∧
    ∀ (i : nat) item, img_data img !! i = Some item →
      ∃ item', img_data out !! i = Some item' ∧ rgb item' = rgb item.
Proof.
  intros Hwf.
  destruct (transform_ok img tolerance Hwf) as (tl & tr & bl & br & bg & H).
  destruct (img_size img) as [w h] eqn:Hsz.
  destruct H as (_ & _ & _ & _ & _ & Htr).
  eexists bg, _, _. split; [exact Htr|]. cbn [img_size img_data].
  split; [done|]. split; [by rewrite length_fmap|].
  intros i item Hi. exists (spec_pixel bg tolerance item).
  split; [by rewrite list_lookup_fmap, Hi|apply spec_pixel_rgb].
Qed.

Lemma rgb_and_size_preserved_witness :
  image_wf sample_rgba ∧
  ∃ bg out n,
    transform sample_rgba 30 = Ok (bg, out, n) ∧
    img_size out = img_size sample_rgba ∧
    length (img_data out) = length (img_data sample_rgba) ∧
    ∀ (i : nat) item, img_data sample_rgba !! i = Some item →
      ∃ item', img_data out !! i = Some item' ∧ rgb item' = rgb item.
Proof.
  split; [exact sample_rgba_wf|].
  exact (rgb_and_size_preserved sample_rgba 30 sample_rgba_wf).
Defined.

(** C5. The threshold test is inclusive: for any background colour and
    tolerance, a pixel at distance exactly Tolerance comes out with alpha 0,
    and a pixel at distance Tolerance+1 comes out with the alpha it had
    (255 if it had none), that is, not forced to 0. *)
Theorem threshold_boundary (bg_color : color) (tolerance : Z) (data : list pixel)
    (i j : nat) (at_tol over : pixel) (r g b r' g' b' : Z) :
  data !! i = Some at_tol → rgb at_tol = (r, g, b) →
  color_distance at_tol bg_color = tolerance →
  data !! j = Some over → rgb over = (r', g', b') →
  color_distance over bg_color = tolerance + 1 →
  (pixel_loop bg_color tolerance data).1 !! i = Some (Px4 r g b 0) ∧
  (pixel_loop bg_color tolerance data).1 !! j = Some (Px4 r' g' b' (alpha over)).
Proof.
  intros Hi Hrgb Hd Hj Hrgb' Hd'. rewrite pixel_loop_spec. cbn [fst].
  rewrite !list_lookup_fmap, Hi, Hj. cbn [fmap option_fmap option_map].
  unfold color_distance in Hd, Hd'. unfold spec_pixel.
  rewrite Hrgb in *. rewrite Hrgb' in *. destruct bg_color as [[br bgn] bb].
  cbn [fst snd] in *. split; f_equal.
  - destruct (Z.leb_spec (Z.abs (r - br) + Z.abs (g - bgn) + Z.abs (b - bb)) tolerance);
      [done|lia].
  - destruct (Z.leb_spec (Z.abs (r' - br) + Z.abs (g' - bgn) + Z.abs (b' - bb)) tolerance);
      [lia|done].
Qed.

Lemma threshold_boundary_witness :
  (pixel_loop (200, 200, 200) 30 (img_data sample_rgba)).1 !! 1%nat
    = Some (Px4 210 210 190 0) ∧
  (pixel_loop (200, 200, 200) 30 (img_data sample_rgba)).1 !! 2%nat
    = Some (Px4 210 210 189 (alpha (Px4 210 210 189 77))).
Proof.
  apply (threshold_boundary (200, 200, 200) 30 (img_data sample_rgba) 1 2
           (Px4 210 210 190 77) (Px4 210 210 189 77)); reflexivity.
Defined.

(** C6. Whenever width and height are at least 1, also when one of them is
    1 and corners coincide, the four corner indices are within the pixel
    sequence and detection returns a colour; on a 1x1 image it returns the
    RGB triple of the single pixel. *)
Theorem degenerate_corners (w h : Z) (data : list pixel) :
  1 ≤ w → 1 ≤ h → len data = w * h →
  Forall (λ i, 0 ≤ i < len data) (corner_indices (w, h)) ∧
  (∃ bg, detect_bg_color (w, h) data = Ok bg) ∧
  (∀ p, data = [p] → detect_bg_color (w, h) data = Ok (rgb p)).
Proof.
  intros Hw Hh Hlen. split; [by apply corner_indices_in_range|].
  destruct (detect_bg_color_spec w h data Hw Hh Hlen)
    as (tl & tr & bl & br & bg & Ltl & Ltr & Lbl & Lbr & Hmaj & Hdet).
  split; [by exists bg|].
  intros p ->. rewrite Hdet. f_equal.
  unfold len in Hlen. cbn [length] in Hlen.
  assert (w = 1) as -> by nia. assert (h = 1) as -> by lia.
  compute in Ltl, Ltr, Lbl, Lbr. simplify_eq.
  apply spec_majority_first in Hmaj as (Hin & _).
  apply list_elem_of_In in Hin. cbn [In] in Hin. intuition congruence.
Qed.

Lemma degenerate_corners_witness :
  Forall (λ i, 0 ≤ i < len [Px4 9 8 7 6]) (corner_indices (1, 1)) ∧
  (∃ bg, detect_bg_color (1, 1) [Px4 9 8 7 6] = Ok bg) ∧
  (∀ p, [Px4 9 8 7 6] = [p] → detect_bg_color (1, 1) [Px4 9 8 7 6] = Ok (rgb p)).
Proof.
  apply (degenerate_corners 1 1 [Px4 9 8 7 6]); [lia | lia | reflexivity].
Defined.

(** A single row and a single column: the duplicate samples are harmless. *)
Example detect_single_row :
  detect_bg_color (3, 1) [Px3 5 5 5; Px3 0 0 0; Px3 7 7 7] = Ok (5, 5, 5).
Proof. reflexivity. Qed.

Example detect_single_column :
  detect_bg_color (1, 2) [Px3 5 5 5; Px3 7 7 7] = Ok (5, 5, 5).
Proof. reflexivity. Qed.

(** C7 as stated does not hold: [remove_background] returns only the
    boolean [True], the same for runs that change 2 and 4 pixels; the
    count is not part of what it returns. *)
Lemma count_not_returned :
  (remove_background "a.png" None 30 sample_world).1 = Ok true ∧
  (remove_background "a.png" None 800 sample_world).1 = Ok true ∧
  transform sample_rgb 30 =
    Ok ((255, 255, 255),
        Image RGBA (2, 2)
          [Px4 255 255 255 0; Px4 255 255 255 0; Px4 0 0 0 255; Px4 10 10 10 255],
        2) ∧
  transform sample_rgb 800 =
    Ok ((255, 255, 255),
        Image RGBA (2, 2)
          [Px4 255 255 255 0; Px4 255 255 255 0; Px4 0 0 0 0; Px4 10 10 10 0],
        4).
Proof. repeat split; vm_compute; reflexivity. Qed.

(** C7, amended. A successful run computes, alongside the transformed image
    it saves, a count that it prints in the line "Pixels changed to
    transparent: N" (its return value is the boolean [True]); the count is
    exactly the number of pixels whose L1 distance from the background
    colour is at most the tolerance. *)
Theorem count_is_printed (input_path : string) (output_path : option string)
    (tolerance : Z) (w : world) (img : image) :
  fs w !! input_path = Some (FImage img) →
  image_wf img →
  resolved_output input_path output_path ∉ unwritable w →
  fs w !! resolved_output input_path output_path ≠ Some FDir →
  ∃ bg out n,
    transform img tolerance = Ok (bg, out, n) ∧
    n = len (filter (λ item, color_distance item bg ≤ tolerance) (img_data img)) ∧
    let run := remove_background input_path output_path tolerance w in
    run.1 = Ok true ∧
    fs run.2 !! resolved_output input_path output_path = Some (FImage out) ∧
    stdout run.2 =
      stdout w ++ success_lines img bg n (resolved_output input_path output_path) ∧
    [Lit "Pixels changed to transparent: "; FInt n] ∈ stdout run.2.
Proof.
  intros Hin Hwf Hw Hd.
  destruct (transform_ok img tolerance Hwf) as (tl & tr & bl & br & bg & H).
  destruct (img_size img) as [wd ht] eqn:Hsz.
  destruct H as (_ & _ & _ & _ & _ & Htr).
  eexists bg, _, _. split; [exact Htr|]. split; [done|]. cbn zeta.
  rewrite (remove_background_success _ _ _ _ _ _ _ _ Hin Htr Hw Hd).
  cbn [fst snd fs stdout]. split; [done|]. split; [by rewrite lookup_insert_eq|].
  split; [done|]. apply elem_of_app. right. unfold success_lines.
  rewrite !elem_of_cons. tauto.
Qed.

Lemma count_is_printed_witness :
  ∃ bg out n,
    transform sample_rgb 30 = Ok (bg, out, n) ∧
    n = len (filter (λ item, color_distance item bg ≤ 30) (img_data sample_rgb)) ∧
    let run := remove_background "a.png" None 30 sample_world in
    run.1 = Ok true ∧
    fs run.2 !! resolved_output "a.png" None = Some (FImage out) ∧
    stdout run.2 =
      stdout sample_world ++ success_lines sample_rgb bg n (resolved_output "a.png" None) ∧
    [Lit "Pixels changed to transparent: "; FInt n] ∈ stdout run.2.
Proof.
  apply (count_is_printed "a.png" None 30 sample_world sample_rgb).
  - reflexivity.
  - exact sample_rgb_wf.
  - decide_by_compute.
  - decide_by_compute.
Defined.

(** C8. The transform is deterministic and history-free. Whatever the loop
    has accumulated so far, it appends the same pixels and adds the same
    count; equal pixels are classified equally wherever they stand and
    whatever surrounds them; and a second invocation on the same image and
    tolerance, run in the world the first one left behind, saves the same
    image and prints the same count. *)
Theorem transform_deterministic (bg_color : color) (tolerance : Z)
    (data data' : list pixel) (i j : nat) (item : pixel)
    (w : world) (input_path out1 out2 : string) (img : image) :
  data !! i = Some item → data' !! j = Some item →
  fs w !! input_path = Some (FImage img) → image_wf img →
  out1 ≠ input_path →
  out1 ∉ unwritable w → fs w !! out1 ≠ Some FDir →
  out2 ∉ unwritable w → fs w !! out2 ≠ Some FDir →
  (∀ new_data pixels_changed,
     foldl (loop_body bg_color tolerance) (new_data, pixels_changed) data =
       (new_data ++ (pixel_loop bg_color tolerance data).1,
        pixels_changed + (pixel_loop bg_color tolerance data).2)) ∧
  (pixel_loop bg_color tolerance data).1 !! i =
    (pixel_loop bg_color tolerance data').1 !! j ∧
  let run1 := remove_background input_path (Some out1) tolerance w in
  let run2 := remove_background input_path (Some out2) tolerance run1.2 in
  ∃ bg out n,
    transform img tolerance = Ok (bg, out, n) ∧
    run1.1 = Ok true ∧ run2.1 = Ok true ∧
    fs run1.2 !! out1 = Some (FImage out) ∧
    fs run2.2 !! out2 = Some (FImage out) ∧
    stdout run1.2 = stdout w ++ success_lines img bg n out1 ∧
    stdout run2.2 = stdout run1.2 ++ success_lines img bg n out2.
Proof.
  intros Hi Hj Hin Hwf Hne Hw1 Hd1 Hw2 Hd2. split; [|split].
  - intros nd pc. by rewrite loop_from, pixel_loop_spec.
  - rewrite !pixel_loop_spec. cbn [fst]. by rewrite !list_lookup_fmap, Hi, Hj.
  - destruct (transform_ok img tolerance Hwf) as (tl & tr & bl & br & bg & H).
    destruct (img_size img) as [wd ht] eqn:Hsz.
    destruct H as (_ & _ & _ & _ & _ & Htr).
    eexists bg, _, _. split; [exact Htr|].
    pose proof (remove_background_success input_path (Some out1) tolerance w
                  img _ _ _ Hin Htr Hw1 Hd1) as Hrun1.
    cbn [resolved_output] in Hrun1. rewrite Hrun1. cbn [fst snd].
    erewrite (remove_background_success input_path (Some out2) tolerance _
                img _ _ _ _ Htr).
    + cbn [fst snd fs stdout resolved_output].
      by rewrite !lookup_insert_eq.
    + done.
    + cbn [fs resolved_output]. rewrite lookup_insert. by case_decide.
    Unshelve. cbn [fs]. by rewrite lookup_insert_ne.
Qed.

Lemma transform_deterministic_witness :
  (∀ new_data pixels_changed,
     foldl (loop_body (255, 255, 255) 30) (new_data, pixels_changed)
           (img_data sample_rgb) =
       (new_data ++ (pixel_loop (255, 255, 255) 30 (img_data sample_rgb)).1,
        pixels_changed + (pixel_loop (255, 255, 255) 30 (img_data sample_rgb)).2)) ∧
  (pixel_loop (255, 255, 255) 30 (img_data sample_rgb)).1 !! 3%nat =
    (pixel_loop (255, 255, 255) 30 [Px3 10 10 10]).1 !! 0%nat ∧
  let run1 := remove_background "a.png" (Some "out1.png") 30 sample_world in
  let run2 := remove_background "a.png" (Some "out2.png") 30 run1.2 in
  ∃ bg out n,
    transform sample_rgb 30 = Ok (bg, out, n) ∧
    run1.1 = Ok true ∧ run2.1 = Ok true ∧
    fs run1.2 !! "out1.png" = Some (FImage out) ∧
    fs run2.2 !! "out2.png" = Some (FImage out) ∧
    stdout run1.2 = stdout sample_world ++ success_lines sample_rgb bg n "out1.png" ∧
    stdout run2.2 = stdout run1.2 ++ success_lines sample_rgb bg n "out2.png".
Proof.
  apply (transform_deterministic (255, 255, 255) 30 (img_data sample_rgb)
           [Px3 10 10 10] 3 0 (Px3 10 10 10) sample_world "a.png"
           "out1.png" "out2.png" sample_rgb).
  - reflexivity.
  - reflexivity.
  - reflexivity.
  - exact sample_rgb_wf.
  - decide_by_compute.
  - decide_by_compute.
  - decide_by_compute.
  - decide_by_compute.
  - decide_by_compute.
Defined.

(** C10. Called with [output_path] omitted, [remove_background] leaves the
    input file as it was and saves the result at the input path with
    "_transparent" inserted between its root and its extension, which is
    never the input path itself. *)
Theorem default_output_path (input_path : string) (tolerance : Z) (w : world)
    (img : image) :
  fs w !! input_path = Some (FImage img) →
  image_wf img →
  let base := (os_path_splitext input_path).1 in
  let ext := (os_path_splitext input_path).2 in
  base +:+ "_transparent" +:+ ext ∉ unwritable w →
  fs w !! (base +:+ "_transparent" +:+ ext) ≠ Some FDir →
  base +:+ ext = input_path ∧
  base +:+ "_transparent" +:+ ext ≠ input_path ∧
  let run := remove_background input_path None tolerance w in
  ∃ bg out n,
    transform img tolerance = Ok (bg, out, n) ∧
    run.1 = Ok true ∧
    fs run.2 !! (base +:+ "_transparent" +:+ ext) = Some (FImage out) ∧
    fs run.2 !! input_path = Some (FImage img) ∧
    ∀ q, q ≠ base +:+ "_transparent" +:+ ext → fs run.2 !! q = fs w !! q.
Proof.
  intros Hin Hwf base ext Hw Hd.
  pose proof (resolved_output_None_ne input_path) as Hne.
  split; [apply os_path_splitext_app|]. split; [exact Hne|]. cbn zeta.
  destruct (transform_ok img tolerance Hwf) as (tl & tr & bl & br & bg & H).
  destruct (img_size img) as [wd ht] eqn:Hsz.
  destruct H as (_ & _ & _ & _ & _ & Htr).
  eexists bg, _, _. split; [exact Htr|].
  rewrite (remove_background_success input_path None tolerance w img _ _ _
             Hin Htr Hw Hd).
  cbn [fst snd fs resolved_output]. fold base ext.
  split; [done|]. split; [by rewrite lookup_insert_eq|].
  split; [by rewrite lookup_insert_ne|].
  intros q Hq. by rewrite lookup_insert_ne.
Qed.

Lemma default_output_path_witness :
  (os_path_splitext "a.png").1 +:+ (os_path_splitext "a.png").2 = "a.png" ∧
  (os_path_splitext "a.png").1 +:+ "_transparent" +:+ (os_path_splitext "a.png").2
    ≠ "a.png" ∧
  let run := remove_background "a.png" None 30 sample_world in
  ∃ bg out n,
    transform sample_rgb 30 = Ok (bg, out, n) ∧
    run.1 = Ok true ∧
    fs run.2 !! ((os_path_splitext "a.png").1 +:+ "_transparent" +:+
                 (os_path_splitext "a.png").2) = Some (FImage out) ∧
    fs run.2 !! "a.png" = Some (FImage sample_rgb) ∧
    ∀ q, q ≠ (os_path_splitext "a.png").1 +:+ "_transparent" +:+
             (os_path_splitext "a.png").2 →
         fs run.2 !! q = fs sample_world !! q.
Proof.
  apply (default_output_path "a.png" 30 sample_world sample_rgb).
  - reflexivity.
  - exact sample_rgb_wf.
  - decide_by_compute.
  - decide_by_compute.
Defined.

(** The example of the claim, and paths without an extension. *)
Example default_output_path_png :
  resolved_output "a.png" None = "a_transparent.png".
Proof. reflexivity. Qed.

Example default_output_path_nested :
  resolved_output "art.v2/zombie.walk.png" None = "art.v2/zombie.walk_transparent.png".
Proof. reflexivity. Qed.

Example default_output_path_no_extension :
  resolved_output "art.v2/.hidden" None = "art.v2/.hidden_transparent".
Proof. reflexivity. Qed.

(** Also when the run fails, the input file is left as it was. *)
Lemma input_never_overwritten (input_path : string) (tolerance : Z) (w : world) :
  fs (remove_background input_path None tolerance w).2 !! input_path
  = fs w !! input_path.
Proof.
  apply remove_background_writes_only.
  intros Heq. by apply (resolved_output_None_ne input_path).
Qed.

(** ** The command line *)

Lemma set_stdout_nil (w : world) : set_stdout (stdout w ++ []) w = w.
Proof. destruct w. unfold set_stdout. cbn. by rewrite app_nil_r. Qed.

(** A run of [main_process] on a file that decodes and can be written. *)
Lemma main_process_success filename tolerance w img bg out n :
  fs w !! cli_filepath filename = Some (FImage img) →
  transform img tolerance = Ok (bg, out, n) →
  cli_filepath filename ∉ unwritable w →
  main_process filename tolerance w =
    (Ok (),
     World (<[cli_filepath filename := FImage out]> (fs w))
           (unwritable w) (glob_result w)
           (stdout w ++
            [ [Lit "Processing: "; Lit (cli_filepath filename)];
              [Lit "Tolerance: "; FInt tolerance];
              [Lit "No backup will be created - overwriting original file"] ] ++
            success_lines img bg n (cli_filepath filename) ++
            [[Nl; Lit "Image processing completed successfully!"]])).
Proof.
  intros Hin Htr Hw. unfold main_process. cbn zeta.
  unfold mbind at 1. unfold M_bind, os_path_exists.
  rewrite bool_decide_eq_true_2 by eauto. cbn [negb].
  unfold mbind, M_bind. unfold print at 1 2 3. cbv beta iota.
  assert (Hd : fs w !! cli_filepath filename ≠ Some FDir) by (by rewrite Hin).
  erewrite (remove_background_success (cli_filepath filename)
              (Some (cli_filepath filename)) tolerance
              (set_stdout _ (set_stdout _ (set_stdout _ w))) img bg out n Hin Htr Hw Hd).
  unfold print, set_stdout. cbn [fs unwritable glob_result stdout resolved_output].
  f_equal. f_equal. rewrite <- !app_assoc. done.
Qed.

(** C9. With a second argument that [int] rejects, [main] prints the
    warning and processes the file with tolerance 30; with one that [int]
    accepts, it processes the file with that integer and prints no warning.
    The tolerance in use is the one printed in the "Tolerance:" line and the
    one the saved image is computed with. *)
Theorem tolerance_argument (int : string → option Z)
    (prog filename arg : string) (rest : list string) (w : world) (img : image) :
  fs w !! cli_filepath filename = Some (FImage img) →
  image_wf img →
  cli_filepath filename ∉ unwritable w →
  let argv := prog :: filename :: arg :: rest in
  let tolerance := default 30 (int arg) in
  let warning := match int arg with None => [tolerance_warning] | Some _ => [] end in
  main int argv w = main_process filename tolerance (set_stdout (stdout w ++ warning) w) ∧
  ∃ bg out n,
    transform img tolerance = Ok (bg, out, n) ∧
    (main int argv w).1 = Ok () ∧
    fs (main int argv w).2 !! cli_filepath filename = Some (FImage out) ∧
    stdout (main int argv w).2 =
      stdout w ++ warning ++
      [ [Lit "Processing: "; Lit (cli_filepath filename)];
        [Lit "Tolerance: "; FInt tolerance];
        [Lit "No backup will be created - overwriting original file"] ] ++
      success_lines img bg n (cli_filepath filename) ++
      [[Nl; Lit "Image processing completed successfully!"]].
Proof.
  intros Hin Hwf Hw argv tolerance warning.
  assert (Hmain : main int argv w =
            main_process filename tolerance (set_stdout (stdout w ++ warning) w)).
  { unfold main, parse_tolerance, argv.
    destruct (Z.ltb_spec (len (prog :: filename :: arg :: rest)) 2) as [Hlt|_].
    { unfold len in Hlt. cbn [length] in Hlt. lia. }
    destruct (Z.ltb_spec 2 (len (prog :: filename :: arg :: rest))) as [_|Hge].
    2:{ unfold len in Hge. cbn [length] in Hge. lia. }
    destruct (getitem_in_range (prog :: filename :: arg :: rest) 1)
      as (x1 & L1 & ->). { unfold len. cbn [length]. lia. }
    destruct (getitem_in_range (prog :: filename :: arg :: rest) 2)
      as (x2 & L2 & ->). { unfold len. cbn [length]. lia. }
    compute in L1, L2. simplify_eq.
    unfold mbind, M_bind, lift, tolerance, warning.
    destruct (int x2) as [k|]; cbn [default].
    - unfold mret, M_ret. by rewrite set_stdout_nil.
    - unfold print, mret, M_ret. done. }
  split; [exact Hmain|].
  destruct (transform_ok img tolerance Hwf) as (tl & tr & bl & br & bg & H).
  destruct (img_size img) as [wd ht] eqn:Hsz.
  destruct H as (_ & _ & _ & _ & _ & Htr).
  eexists bg, _, _. split; [exact Htr|]. rewrite Hmain.
  rewrite (main_process_success filename tolerance
             (set_stdout (stdout w ++ warning) w) img _ _ _ Hin Htr Hw).
  cbn [fst snd fs stdout set_stdout]. split; [done|].
  split; [by rewrite lookup_insert_eq|]. by rewrite <- !app_assoc.
Qed.

Lemma tolerance_argument_witness :
  let argv := ["remove_white_background.py"; "zombie.png"; "thirty"] in
  let tolerance := default 30 (int_decimal "thirty") in
  let warning :=
    match int_decimal "thirty" with None => [tolerance_warning] | Some _ => [] end in
  main int_decimal argv cli_world =
    main_process "zombie.png" tolerance
      (set_stdout (stdout cli_world ++ warning) cli_world) ∧
  ∃ bg out n,
    transform sample_rgb tolerance = Ok (bg, out, n) ∧
    (main int_decimal argv cli_world).1 = Ok () ∧
    fs (main int_decimal argv cli_world).2 !! cli_filepath "zombie.png"
      = Some (FImage out) ∧
    stdout (main int_decimal argv cli_world).2 =
      stdout cli_world ++ warning ++
      [ [Lit "Processing: "; Lit (cli_filepath "zombie.png")];
        [Lit "Tolerance: "; FInt tolerance];
        [Lit "No backup will be created - overwriting original file"] ] ++
      success_lines sample_rgb bg n (cli_filepath "zombie.png") ++
      [[Nl; Lit "Image processing completed successfully!"]].
Proof.
  apply (tolerance_argument int_decimal "remove_white_background.py" "zombie.png"
           "thirty" [] cli_world sample_rgb).
  - reflexivity.
  - exact sample_rgb_wf.
  - decide_by_compute.
Defined.

(** Both cases on the sample: "thirty" gives the warning and tolerance 30,
    "800" gives tolerance 800 and all four pixels transparent. *)
Example cli_invalid_tolerance :
  stdout (main int_decimal ["remove_white_background.py"; "zombie.png"; "thirty"]
            cli_world).2 =
    [ tolerance_warning;
      [Lit "Processing: "; Lit "assets/zombie.png"];
      [Lit "Tolerance: "; FInt 30];
      [Lit "No backup will be created - overwriting original file"];
      [Lit "Original image size: "; FSize (2, 2)];
      [Lit "Original image mode: "; FMode RGB];
      [Lit "Detected background color: RGB"; FColor (255, 255, 255)];
      [Lit "Successfully processed image!"];
      [Lit "Pixels changed to transparent: "; FInt 2];
      [Lit "Output saved to: "; Lit "assets/zombie.png"];
      [Nl; Lit "Image processing completed successfully!"] ].
Proof. vm_compute. reflexivity. Qed.

Example cli_valid_tolerance :
  stdout (main int_decimal ["remove_white_background.py"; "zombie.png"; "800"]
            cli_world).2 =
    [ [Lit "Processing: "; Lit "assets/zombie.png"];
      [Lit "Tolerance: "; FInt 800];
      [Lit "No backup will be created - overwriting original file"];
      [Lit "Original image size: "; FSize (2, 2)];
      [Lit "Original image mode: "; FMode RGB];
      [Lit "Detected background color: RGB"; FColor (255, 255, 255)];
      [Lit "Successfully processed image!"];
      [Lit "Pixels changed to transparent: "; FInt 4];
      [Lit "Output saved to: "; Lit "assets/zombie.png"];
      [Nl; Lit "Image processing completed successfully!"] ].
Proof. vm_compute. reflexivity. Qed.

(** ** The batch driver *)

(** The name called at line 145 is bound nowhere in the module. *)
Lemma remove_white_background_unbound :
  module_globals !! "remove_white_background" = None.
Proof. reflexivity. Qed.

Lemma call_unbound input_path output_path tolerance w :
  call_global "remove_white_background" input_path output_path tolerance w
  = (Raise (NameError "remove_white_background"), w).
Proof. unfold call_global. by rewrite remove_white_background_unbound. Qed.

(** The backup step returns whether or not the copy succeeds. *)
Lemma make_backup_returns backup img_file w :
  ∃ w', make_backup backup img_file w = (Ok (), w').
Proof.
  unfold make_backup. destruct backup; [|by eexists].
  unfold mbind at 1. unfold M_bind, os_path_exists.
  destruct (bool_decide _); cbn [negb]; [by eexists|].
  unfold try_except, mbind, M_bind.
  destruct (shutil_copy2 _ _ w) as [[[]|e] w']; by eexists.
Qed.

(** One iteration of the batch loop raises NameError, before any image is
    opened. *)
Lemma process_one_raises tolerance backup success_count img_file w :
  (process_one tolerance backup success_count img_file w).1
  = Raise (NameError "remove_white_background").
Proof.
  unfold process_one, mbind, M_bind. unfold print at 1. cbv beta iota.
  match goal with
  | |- context [make_backup backup img_file ?w0] =>
      destruct (make_backup_returns backup img_file w0) as [w' ->]
  end.
  by rewrite call_unbound.
Qed.

Lemma for_each_raises {A S} (x : A) (l : list A) (s : S) (body : S → A → M S) e w :
  (body s x w).1 = Raise e → (for_each (x :: l) s body w).1 = Raise e.
Proof.
  intros H. cbn [for_each]. unfold mbind, M_bind.
  destruct (body s x w) as [[s'|e'] w']; cbn [fst] in *; [done|done].
Qed.

Lemma for_each_print {A} (l : list A) (f : A → line) (w : world) :
  ∃ w', for_each l () (λ _ x, print (f x)) w = (Ok (), w').
Proof.
  revert w. induction l as [|x l IH]; intros w; [by eexists|].
  cbn [for_each]. unfold mbind, M_bind, print at 1. apply IH.
Qed.

(** The globbing loop of lines 115-118 returns [found_images] and changes
    nothing. *)
Lemma glob_loop directory_path (exts : list string) (acc : list string) (w : world) :
  for_each exts acc
    (λ image_files ext,
       lower ← glob_glob (os_path_join directory_path ext);
       upper ← glob_glob (os_path_join directory_path (upper ext));
       mret (image_files ++ lower ++ upper)) w
  = (Ok (foldl (λ image_files ext,
                  image_files ++ glob_result w (os_path_join directory_path ext)
                    ++ glob_result w (os_path_join directory_path (upper ext)))
               acc exts), w).
Proof.
  revert acc. induction exts as [|ext exts IH]; intros acc; [done|].
  cbn [for_each foldl]. unfold mbind at 1. unfold M_bind at 1.
  unfold mbind at 1 2. unfold M_bind at 1 2. unfold glob_glob at 1 2.
  unfold mret at 1. unfold M_ret at 1. apply IH.
Qed.

(** Whenever the directory exists and holds at least one image file,
    [process_directory] ends in an uncaught NameError at the first file. *)
Lemma process_directory_raises directory_path tolerance backup w :
  is_Some (fs w !! directory_path) →
  found_images w directory_path ≠ [] →
  (process_directory directory_path tolerance backup w).1
  = Raise (NameError "remove_white_background").
Proof.
  intros Hdir Hfiles. unfold process_directory.
  unfold mbind at 1. unfold M_bind at 1. unfold os_path_exists.
  rewrite bool_decide_eq_true_2 by done. cbn [negb].
  unfold mbind at 1. unfold M_bind at 1. rewrite glob_loop.
  fold (found_images w directory_path).
  rewrite bool_decide_eq_false_2 by done.
  destruct (found_images w directory_path) as [|img_file files] eqn:E; [done|].
  unfold mbind at 1. unfold M_bind at 1. unfold print at 1.
  unfold mbind at 1. unfold M_bind at 1.
  match goal with
  | |- context [for_each ?l () ?b ?w0] =>
      destruct (for_each_print l
                  (λ f, [Lit "  - "; Lit (os_path_basename f)]) w0) as [w1 ->]
  end.
  unfold mbind at 1. unfold M_bind at 1.
  pose proof (for_each_raises img_file files 0 (process_one tolerance backup)
                _ w1 (process_one_raises tolerance backup 0 img_file w1)) as Hr.
  revert Hr.
  destruct (for_each (img_file :: files) 0 (process_one tolerance backup) w1)
    as [[sc|e] w2]; cbn [fst]; [discriminate|].
  by intros [= ->].
Qed.

(** C3, on the code: a batch over a directory with two images stops at the
    first one with an uncaught NameError. The function called for each file
    at line 145 is [remove_white_background], a name the module does not
    define; no file is opened, the second file is never reached, and
    neither "Failed to process" nor the final summary is printed. *)
Theorem batch_stops_at_first_file :
  let run := process_directory "d" 30 false batch_world in
  run.1 = Raise (NameError "remove_white_background") ∧
  fs run.2 = fs batch_world ∧
  stdout run.2 =
    [ [Nl; Lit "Found "; FInt 2; Lit " image(s) to process:"];
      [Lit "  - "; Lit "a.png"];
      [Lit "  - "; Lit "b.png"];
      [Nl; Lit "--- Processing: "; Lit "a.png"; Lit " ---"] ].
Proof. vm_compute. repeat split; reflexivity. Qed.

(** The per-file function itself does contain its errors: called directly
    on an undecodable file or an unwritable output it prints the error and
    returns [False]. *)
Example remove_background_contains_errors :
  (remove_background "junk.png" (Some "junk.png") 30
     (World {[ "junk.png" := FOther ]} ∅ no_glob [])) =
    (Ok false,
     World {[ "junk.png" := FOther ]} ∅ no_glob
       [[Lit "Error processing image: "; FExn UnidentifiedImageError]]).
Proof. reflexivity. Qed.

(** * Further properties of the script *)

(** ** [remove_background] in closed form *)

(** Every way a call of [remove_background] can go, with the world it
    leaves: the input is missing; it is not an image; detection fails; the
    save fails; or the transformed image is saved. *)
Lemma remove_background_eq input_path output_path tolerance w :
  remove_background input_path output_path tolerance w =
  match fs w !! input_path with
  | None =>
      (Ok false,
       add_lines [[Lit "Error: Input file '"; Lit input_path; Lit "' not found."]] w)
  | Some FOther => (Ok false, add_lines [error_line UnidentifiedImageError] w)
  | Some FDir => (Ok false, add_lines [error_line OSError] w)
  | Some (FImage img) =>
      let opened := [ [Lit "Original image size: "; FSize (img_size img)];
                      [Lit "Original image mode: "; FMode (img_mode img)] ] in
      match detect_bg_color (img_size img) (working_data img) with
      | Raise e => (Ok false, add_lines (opened ++ [error_line e]) w)
      | Ok bg =>
          let out := Image RGBA (img_size img)
                       (spec_pixel bg tolerance <$> working_data img) in
          let n := spec_count bg tolerance (working_data img) in
          let target := resolved_output input_path output_path in
          if bool_decide (target ∈ unwritable w) ||
             bool_decide (fs w !! target = Some FDir)
          then
            (Ok false,
             add_lines (opened ++
                        [ [Lit "Detected background color: RGB"; FColor bg];
                          error_line OSError ]) w)
          else
            (Ok true,
             World (<[target := FImage out]> (fs w)) (unwritable w) (glob_result w)
                   (stdout w ++ success_lines img bg n target))
      end
  end.
Proof.
  assert (Hout : (match output_path with
                  | Some p => p
                  | None => let '(base, ext) := os_path_splitext input_path in
                            base +:+ "_transparent" +:+ ext
                  end) = resolved_output input_path output_path).
  { unfold resolved_output. destruct output_path; [done|].
    by destruct (os_path_splitext input_path). }
  unfold remove_background. rewrite Hout.
  unfold mbind at 1. unfold M_bind at 1. unfold os_path_exists.
  destruct (fs w !! input_path) as [[img| |]|] eqn:Hin.
  2,3,4: by (try rewrite bool_decide_eq_true_2 by eauto;
             try rewrite bool_decide_eq_false_2 by (by intros [? ?]);
             cbn [negb]; unfold try_except, mbind, M_bind, Image_open;
             rewrite ?Hin).
  rewrite bool_decide_eq_true_2 by eauto. cbn [negb].
  unfold try_except, mbind, M_bind, Image_open. rewrite Hin.
  unfold print at 1 2. cbv beta iota. unfold lift at 1. unfold working_data.
  assert (Hsz : img_size (if decide (img_mode img = RGBA) then img
                          else convert_RGBA img) = img_size img)
    by (by case_decide).
  assert (Hmode : img_mode (if decide (img_mode img = RGBA) then img
                            else convert_RGBA img) = RGBA)
    by (by case_decide).
  rewrite Hsz.
  destruct (detect_bg_color _ _) as [bg|e].
  2:{ unfold print, set_stdout, add_lines, mret, M_ret, error_line.
      cbn [fs stdout unwritable glob_result]. rewrite <- !app_assoc. done. }
  unfold print at 1. cbv beta iota. rewrite pixel_loop_spec.
  unfold Image_save, print, set_fs, set_stdout, mret, M_ret, putdata, add_lines,
    error_line.
  cbn [fs stdout unwritable glob_result]. rewrite Hsz, Hmode.
  destruct (bool_decide _ || bool_decide _);
    cbn [fs stdout unwritable glob_result]; unfold success_lines;
    rewrite <- ?app_assoc; done.
Qed.

Lemma working_data_eq img :
  working_data img =
    if decide (img_mode img = RGBA) then img_data img else to_rgba <$> img_data img.
Proof. unfold working_data. by case_decide. Qed.

Lemma transform_eq img tolerance :
  transform img tolerance =
    (bg ← detect_bg_color (img_size img) (working_data img);
     Ok (bg, Image RGBA (img_size img) (spec_pixel bg tolerance <$> working_data img),
         spec_count bg tolerance (working_data img))).
Proof. rewrite transform_unfold. cbn zeta. by rewrite <- working_data_eq. Qed.

(** ** Failing and succeeding runs of [remove_background] *)

(** X1. When the input path does not exist, [remove_background] returns
    [False], prints the single line "Error: Input file '<path>' not found."
    and leaves every file as it was. *)
Theorem missing_input (input_path : string) (output_path : option string)
    (tolerance : Z) (w : world) :
  fs w !! input_path = None →
  remove_background input_path output_path tolerance w =
    (Ok false,
     World (fs w) (unwritable w) (glob_result w)
       (stdout w ++ [[Lit "Error: Input file '"; Lit input_path; Lit "' not found."]])).
Proof. intros Hin. by rewrite remove_background_eq, Hin. Qed.

Lemma missing_input_witness :
  remove_background "nowhere.png" (Some "out.png") 30 faulty_world =
    (Ok false,
     World (fs faulty_world) (unwritable faulty_world) (glob_result faulty_world)
       (stdout faulty_world ++
        [[Lit "Error: Input file '"; Lit "nowhere.png"; Lit "' not found."]])).
Proof. apply (missing_input "nowhere.png" (Some "out.png") 30 faulty_world). reflexivity. Defined.

(** X2. When the input path exists but does not hold an image (another kind
    of file, or a directory), the exception of [Image.open] is caught:
    [remove_background] returns [False], prints the single line
    "Error processing image: <exception>" and leaves every file as it was. *)
Theorem undecodable_input (input_path : string) (output_path : option string)
    (tolerance : Z) (w : world) (f : file) :
  fs w !! input_path = Some f →
  f = FOther ∨ f = FDir →
  remove_background input_path output_path tolerance w =
    (Ok false,
     World (fs w) (unwritable w) (glob_result w)
       (stdout w ++
        [[Lit "Error processing image: ";
          FExn (match f with FOther => UnidentifiedImageError | _ => OSError end)]])).
Proof. intros Hin [-> | ->]; by rewrite remove_background_eq, Hin. Qed.

Lemma undecodable_input_witness :
  remove_background "junk.png" None 30 faulty_world =
    (Ok false,
     World (fs faulty_world) (unwritable faulty_world) (glob_result faulty_world)
       (stdout faulty_world ++
        [[Lit "Error processing image: "; FExn UnidentifiedImageError]])).
Proof.
  apply (undecodable_input "junk.png" None 30 faulty_world FOther);
    [reflexivity | left; reflexivity].
Defined.



(** X4. When the output path cannot be written, the failure of [img.save]
    is caught after the background colour has been detected and printed:
    [False] is returned and no file is changed, the input included. *)
Theorem unwritable_output (input_path : string) (output_path : option string)
    (tolerance : Z) (w : world) (img : image) :
  fs w !! input_path = Some (FImage img) →
  image_wf img →
  resolved_output input_path output_path ∈ unwritable w →
  ∃ bg out n,
    transform img tolerance = Ok (bg, out, n) ∧
    remove_background input_path output_path tolerance w =
      (Ok false,
       World (fs w) (unwritable w) (glob_result w)
         (stdout w ++
          [ [Lit "Original image size: "; FSize (img_size img)];
            [Lit "Original image mode: "; FMode (img_mode img)];
            [Lit "Detected background color: RGB"; FColor bg];
            [Lit "Error processing image: "; FExn OSError] ])).
Proof.
  intros Hin Hwf Hw.
  destruct (transform_ok img tolerance Hwf) as (tl & tr & bl & br & bg & H).
  destruct (img_size img) as [wd ht] eqn:Hsz.
  destruct H as (_ & _ & _ & _ & _ & Htr).
  eexists bg, _, _. split; [exact Htr|].
  rewrite transform_eq, Hsz in Htr.
  rewrite remove_background_eq, Hin, Hsz. cbn zeta.
  destruct (detect_bg_color _ _) as [bg'|e]; [|done].
  cbn [mbind result_bind] in Htr. injection Htr as -> _ _.
  by rewrite bool_decide_eq_true_2 by done.
Qed.

Lemma unwritable_output_witness :
  ∃ bg out n,
    transform sample_rgb 30 = Ok (bg, out, n) ∧
    remove_background "locked.png" (Some "locked.png") 30 faulty_world =
      (Ok false,
       World (fs faulty_world) (unwritable faulty_world) (glob_result faulty_world)
         (stdout faulty_world ++
          [ [Lit "Original image size: "; FSize (img_size sample_rgb)];
            [Lit "Original image mode: "; FMode (img_mode sample_rgb)];
            [Lit "Detected background color: RGB"; FColor bg];
            [Lit "Error processing image: "; FExn OSError] ])).
Proof.
  apply (unwritable_output "locked.png" (Some "locked.png") 30 faulty_world sample_rgb).
  - reflexivity.
  - exact sample_rgb_wf.
  - decide_by_compute.
Defined.



(** X6. A run that returns [True] did what it says: the input held an
    image, the transform of that image succeeded, the result is what the
    output path now holds, no other path changed, and the printed count is
    the transform's. *)
Theorem true_return_sound (input_path : string) (output_path : option string)
    (tolerance : Z) (w : world) :
  (remove_background input_path output_path tolerance w).1 = Ok true →
  ∃ img bg out n,
    fs w !! input_path = Some (FImage img) ∧
    transform img tolerance = Ok (bg, out, n) ∧
    fs (remove_background input_path output_path tolerance w).2 =
      <[resolved_output input_path output_path := FImage out]> (fs w) ∧
    stdout (remove_background input_path output_path tolerance w).2 =
      stdout w ++ success_lines img bg n (resolved_output input_path output_path).
Proof.
  rewrite remove_background_eq.
  destruct (fs w !! input_path) as [[img| |]|]; try done. cbn zeta.
  destruct (detect_bg_color _ _) as [bg|e] eqn:Hdet; [|done].
  destruct (bool_decide _ || bool_decide _); [done|]. intros _.
  eexists img, bg, _, _. split; [done|].
  rewrite transform_eq, Hdet. done.
Qed.

Lemma true_return_sound_witness :
  ∃ img bg out n,
    fs sample_world !! "b.png" = Some (FImage img) ∧
    transform img 0 = Ok (bg, out, n) ∧
    fs (remove_background "b.png" (Some "b.png") 0 sample_world).2 =
      <[resolved_output "b.png" (Some "b.png") := FImage out]> (fs sample_world) ∧
    stdout (remove_background "b.png" (Some "b.png") 0 sample_world).2 =
      stdout sample_world ++
      success_lines img bg n (resolved_output "b.png" (Some "b.png")).
Proof.
  apply (true_return_sound "b.png" (Some "b.png") 0 sample_world). reflexivity.
Defined.

(** ** The transform in terms of the image's own pixels *)

Lemma getitem_fmap {A B} (f : A → B) (l : list A) (i : Z) :
  getitem (f <$> l) i =
    match getitem l i with
    | Ok x => Ok (f x)
    | Raise e => Raise e
    end.
Proof.
  unfold getitem. rewrite length_fmap.
  destruct (_ || _); [done|].
  rewrite list_lookup_fmap. by destruct (l !! _).
Qed.

Lemma getitems_fmap {A B} (f : A → B) (l : list A) (indices : list Z) :
  getitems (f <$> l) indices =
    match getitems l indices with
    | Ok xs => Ok (f <$> xs)
    | Raise e => Raise e
    end.
Proof.
  induction indices as [|i indices IH]; [done|]. cbn [getitems].
  rewrite getitem_fmap. destruct (getitem l i) as [x|e]; [|done].
  cbn [mbind result_bind]. rewrite IH.
  by destruct (getitems l indices).
Qed.

(** Detection looks at colours only. *)
Lemma detect_bg_color_rgb size data :
  detect_bg_color size data =
    (colors ← getitems (rgb <$> data) (corner_indices size);
     top ← getitem (most_common_1 (Counter colors)) 0;
     Ok top.1).
Proof.
  unfold detect_bg_color. rewrite getitems_fmap.
  by destruct (getitems data (corner_indices size)).
Qed.

Lemma detect_bg_color_same_colors size data data' :
  rgb <$> data = rgb <$> data' →
  detect_bg_color size data = detect_bg_color size data'.
Proof. intros H. by rewrite !detect_bg_color_rgb, H. Qed.

Lemma working_data_rgb img : rgb <$> working_data img = rgb <$> img_data img.
Proof.
  rewrite working_data_eq. case_decide; [done|].
  rewrite <- list_fmap_compose. apply list_fmap_ext. intros i p _. apply rgb_to_rgba.
Qed.

Lemma color_distance_same_rgb p q bg :
  rgb p = rgb q → color_distance p bg = color_distance q bg.
Proof. unfold color_distance. by intros ->. Qed.

Lemma spec_count_fmap bg tol (f : pixel → pixel) data :
  (∀ p, rgb (f p) = rgb p) →
  spec_count bg tol (f <$> data) = spec_count bg tol data.
Proof.
  intros Hf. unfold spec_count, len. f_equal.
  induction data as [|p data IH]; [done|].
  rewrite fmap_cons, !filter_cons, (color_distance_same_rgb (f p) p) by apply Hf.
  case_decide; simpl; by rewrite IH.
Qed.

(** The transform read off the image's own pixel sequence: conversion to
    RGBA changes neither the colours detection sees nor the pixel the rule
    prescribes. *)
Lemma transform_data img tolerance :
  transform img tolerance =
    (bg ← detect_bg_color (img_size img) (img_data img);
     Ok (bg, Image RGBA (img_size img) (spec_pixel bg tolerance <$> img_data img),
         spec_count bg tolerance (img_data img))).
Proof.
  rewrite transform_eq.
  rewrite (detect_bg_color_same_colors _ _ _ (working_data_rgb img)).
  destruct (detect_bg_color _ _) as [bg|e]; [|done]. cbn [mbind result_bind].
  rewrite working_data_eq. case_decide; [done|].
  rewrite <- list_fmap_compose, (spec_count_fmap _ _ to_rgba) by apply rgb_to_rgba.
  do 4 f_equal. apply list_fmap_ext. intros i p _. apply spec_pixel_to_rgba.
Qed.

Lemma transform_inv img tolerance bg out n :
  transform img tolerance = Ok (bg, out, n) →
  detect_bg_color (img_size img) (img_data img) = Ok bg ∧
  out = Image RGBA (img_size img) (spec_pixel bg tolerance <$> img_data img) ∧
  n = spec_count bg tolerance (img_data img).
Proof.
  rewrite transform_data. destruct (detect_bg_color _ _) as [bg'|e]; [|done].
  cbn [mbind result_bind]. by intros [= -> <- <-].
Qed.

Lemma spec_pixel_alpha bg tol p :
  alpha (spec_pixel bg tol p) =
    if bool_decide (color_distance p bg ≤ tol) then 0 else alpha p.
Proof.
  unfold spec_pixel, color_distance. destruct (rgb p) as [[r g] b].
  destruct bg as [[br bgn] bb]. cbn [fst snd].
  destruct (Z.leb_spec (Z.abs (r - br) + Z.abs (g - bgn) + Z.abs (b - bb)) tol);
    [rewrite bool_decide_eq_true_2 by done|rewrite bool_decide_eq_false_2 by lia];
    done.
Qed.

Lemma spec_pixel_has_alpha bg tol p : has_alpha (spec_pixel bg tol p) = true.
Proof.
  unfold spec_pixel. destruct (rgb p) as [[r g] b]. destruct bg as [[br bgn] bb].
  by case_match.
Qed.

(** A pixel with four channels is its colour and its alpha. *)
Lemma pixel_eq p q :
  has_alpha p = true → has_alpha q = true → rgb p = rgb q → alpha p = alpha q → p = q.
Proof. destruct p, q; cbn; intros; simplify_eq; done. Qed.

Lemma color_distance_nonneg p bg : 0 ≤ color_distance p bg.
Proof.
  unfold color_distance. destruct (rgb p) as [[r g] b]. lia.
Qed.

Lemma spec_count_bounds bg tol data : 0 ≤ spec_count bg tol data ≤ len data.
Proof.
  unfold spec_count, len. split; [lia|]. apply inj_le, length_filter.
Qed.

(** The rule applied to its own output: what was made transparent stays
    transparent, so the larger tolerance decides. *)
Lemma spec_pixel_twice bg t1 t2 p :
  spec_pixel bg t2 (spec_pixel bg t1 p) = spec_pixel bg (Z.max t1 t2) p.
Proof.
  apply pixel_eq; try apply spec_pixel_has_alpha.
  - by rewrite !spec_pixel_rgb.
  - rewrite !spec_pixel_alpha.
    rewrite (color_distance_same_rgb (spec_pixel bg t1 p) p) by apply spec_pixel_rgb.
    repeat case_bool_decide; lia.
Qed.

(** The transform applied to its own output, with any second tolerance. *)
Lemma transform_after img t1 t2 bg out1 n1 :
  transform img t1 = Ok (bg, out1, n1) →
  transform out1 t2 =
    Ok (bg,
        Image RGBA (img_size img) (spec_pixel bg (Z.max t1 t2) <$> img_data img),
        spec_count bg t2 (img_data img)).
Proof.
  intros (Hdet & -> & ->)%transform_inv. rewrite transform_data.
  cbn [img_size img_data].
  rewrite (detect_bg_color_same_colors _ _ (img_data img)), Hdet.
  2:{ rewrite <- list_fmap_compose. apply list_fmap_ext.
      intros i p _. apply spec_pixel_rgb. }
  cbn [mbind result_bind].
  rewrite <- list_fmap_compose, spec_count_fmap by apply spec_pixel_rgb.
  do 4 f_equal. apply list_fmap_ext. intros i p _. apply spec_pixel_twice.
Qed.

Lemma filter_length_mono {A} (P Q : A → Prop) `{∀ x, Decision (P x)}
    `{∀ x, Decision (Q x)} (l : list A) :
  (∀ x, P x → Q x) → (length (filter P l) ≤ length (filter Q l))%nat.
Proof.
  intros HPQ. induction l as [|x l IH]; [done|].
  rewrite !filter_cons. repeat case_decide; cbn [length]; try lia.
  exfalso. eauto.
Qed.

(** On a well-formed image the detected colour is the colour of the pixel
    at one of the four corner indices. *)
Lemma detected_is_a_corner img bg :
  image_wf img →
  detect_bg_color (img_size img) (img_data img) = Ok bg →
  ∃ c p, c ∈ corner_indices (img_size img) ∧ 0 ≤ c ∧
         img_data img !! Z.to_nat c = Some p ∧ rgb p = bg.
Proof.
  destruct img as [m [w h] data]. unfold image_wf. cbn [img_size img_data fst snd].
  intros (Hw & Hh & Hlen) Hdet.
  destruct (detect_bg_color_spec w h data Hw Hh Hlen)
    as (tl & tr & bl & br & bg' & Ltl & Ltr & Lbl & Lbr & Hmaj & Hdet').
  rewrite Hdet in Hdet'. injection Hdet' as <-.
  apply spec_majority_first in Hmaj as (Hin & _).
  unfold flat_index in *. cbn [fst snd] in *.
  replace (0 * w + 0) with 0 in Ltl by lia.
  replace (0 * w + (w - 1)) with (w - 1) in Ltr by lia.
  replace ((h - 1) * w + 0) with (w * (h - 1)) in Lbl by lia.
  replace ((h - 1) * w + (w - 1)) with (w * h - 1) in Lbr by lia.
  unfold corner_indices. cbn [fst snd].
  rewrite !elem_of_cons, elem_of_nil in Hin.
  destruct Hin as [->|[->|[->|[->|[]]]]].
  - exists 0, tl. rewrite !elem_of_cons. repeat split; auto; lia.
  - exists (w - 1), tr. rewrite !elem_of_cons. repeat split; auto; lia.
  - exists (w * (h - 1)), bl. rewrite !elem_of_cons. repeat split; auto; nia.
  - exists (w * h - 1), br. rewrite !elem_of_cons. repeat split; auto; nia.
Qed.

(** ** What the transform does to alpha *)

(** X7. The image the transform produces is in mode RGBA and every pixel
    of it has four channels. Its alpha is either 0 or the alpha the input
    pixel carried: a pixel that was already transparent stays transparent,
    and no pixel is ever made more opaque. *)
Theorem output_alpha (img : image) (tolerance : Z) (bg : color) (out : image) (n : Z) :
  transform img tolerance = Ok (bg, out, n) →
  img_mode out = RGBA ∧
  ∀ (i : nat) p, img_data img !! i = Some p →
    ∃ q, img_data out !! i = Some q ∧ has_alpha q = true ∧
         (alpha q = 0 ∨ alpha q = alpha p) ∧ (alpha p = 0 → alpha q = 0).
Proof.
  intros (_ & -> & _)%transform_inv. split; [done|].
  intros i p Hp. exists (spec_pixel bg tolerance p). cbn [img_data].
  rewrite list_lookup_fmap, Hp. split; [done|].
  split; [apply spec_pixel_has_alpha|]. rewrite spec_pixel_alpha.
  case_bool_decide; auto.
Qed.

Lemma output_alpha_witness :
  img_mode (Image RGBA (3, 1)
              [Px4 200 200 200 0; Px4 210 210 190 0; Px4 210 210 189 77]) = RGBA ∧
  ∀ (i : nat) p, img_data sample_rgba !! i = Some p →
    ∃ q, img_data (Image RGBA (3, 1)
                     [Px4 200 200 200 0; Px4 210 210 190 0; Px4 210 210 189 77]) !! i
           = Some q ∧ has_alpha q = true ∧
         (alpha q = 0 ∨ alpha q = alpha p) ∧ (alpha p = 0 → alpha q = 0).
Proof. apply (output_alpha sample_rgba 30 (200, 200, 200) _ 2). reflexivity. Defined.

(** X8. Transforming an already transformed image, with the same or
    another tolerance, detects the same background colour and gives the
    image that one transform with the larger of the two tolerances gives:
    with the same tolerance the image does not change, and a smaller
    tolerance cannot bring transparent pixels back. The second count is the
    count of the second tolerance on the original image. *)
Theorem transform_twice (img : image) (t1 t2 : Z) (bg : color) (out1 : image) (n1 : Z) :
  transform img t1 = Ok (bg, out1, n1) →
  ∃ out2 n2 n_max o2,
    transform out1 t2 = Ok (bg, out2, n2) ∧
    transform img (Z.max t1 t2) = Ok (bg, out2, n_max) ∧
    transform img t2 = Ok (bg, o2, n2) ∧
    (t1 = t2 → out2 = out1 ∧ n2 = n1).
Proof.
  intros Htr. pose proof (transform_after img t1 t2 bg out1 n1 Htr) as H2.
  apply transform_inv in Htr as (Hdet & -> & ->).
  eexists _, _, _, _. split; [exact H2|].
  rewrite !transform_data, Hdet. cbn [mbind result_bind].
  split; [done|]. split; [done|]. intros ->. by rewrite Z.max_id.
Qed.

Lemma transform_twice_witness :
  ∃ out2 n2 n_max o2,
    transform (Image RGBA (3, 1)
                 [Px4 200 200 200 0; Px4 210 210 190 0; Px4 210 210 189 77]) 0
      = Ok ((200, 200, 200), out2, n2) ∧
    transform sample_rgba (Z.max 30 0) = Ok ((200, 200, 200), out2, n_max) ∧
    transform sample_rgba 0 = Ok ((200, 200, 200), o2, n2) ∧
    (30 = 0 → out2 = Image RGBA (3, 1)
                 [Px4 200 200 200 0; Px4 210 210 190 0; Px4 210 210 189 77] ∧ n2 = 2).
Proof. apply (transform_twice sample_rgba 30 0 (200, 200, 200) _ 2). reflexivity. Defined.

(** X9. Raising the tolerance never makes fewer pixels transparent. The
    detected background colour does not depend on the tolerance; with
    [t1 <= t2] every pixel that comes out transparent under [t1] comes out
    transparent under [t2], and the counts satisfy
    [0 <= n1 <= n2 <= number of pixels]. *)
Theorem tolerance_monotone (img : image) (t1 t2 : Z) (bg1 bg2 : color)
    (out1 out2 : image) (n1 n2 : Z) :
  t1 ≤ t2 →
  transform img t1 = Ok (bg1, out1, n1) →
  transform img t2 = Ok (bg2, out2, n2) →
  bg1 = bg2 ∧ 0 ≤ n1 ∧ n1 ≤ n2 ∧ n2 ≤ len (img_data img) ∧
  ∀ (i : nat) q, img_data out1 !! i = Some q → alpha q = 0 →
    ∃ q', img_data out2 !! i = Some q' ∧ alpha q' = 0.
Proof.
  intros Hle (Hdet1 & -> & ->)%transform_inv (Hdet2 & -> & ->)%transform_inv.
  rewrite Hdet1 in Hdet2. injection Hdet2 as <-.
  split; [done|]. split; [apply spec_count_bounds|].
  split; [|split; [apply spec_count_bounds|]].
  - unfold spec_count, len. apply inj_le, filter_length_mono. intros p. lia.
  - cbn [img_data]. intros i q. rewrite !list_lookup_fmap.
    destruct (img_data img !! i) as [p|]; [|done]. cbn. intros [= <-].
    rewrite spec_pixel_alpha. intros Ha.
    eexists. split; [done|]. rewrite spec_pixel_alpha.
    repeat case_bool_decide; try done; lia.
Qed.

Lemma tolerance_monotone_witness :
  (255, 255, 255) = (255, 255, 255) ∧ 0 ≤ 2 ∧ 2 ≤ 4 ∧ 4 ≤ len (img_data sample_rgb) ∧
  ∀ (i : nat) q,
    img_data (Image RGBA (2, 2)
      [Px4 255 255 255 0; Px4 255 255 255 0; Px4 0 0 0 255; Px4 10 10 10 255]) !! i
      = Some q → alpha q = 0 →
    ∃ q', img_data (Image RGBA (2, 2)
      [Px4 255 255 255 0; Px4 255 255 255 0; Px4 0 0 0 0; Px4 10 10 10 0]) !! i
      = Some q' ∧ alpha q' = 0.
Proof.
  apply (tolerance_monotone sample_rgb 30 800); [lia | reflexivity | reflexivity].
Defined.

Lemma filter_none {A} (P : A → Prop) `{∀ x, Decision (P x)} (l : list A) :
  (∀ x, x ∈ l → ¬ P x) → filter P l = [].
Proof.
  induction l as [|x l IH]; [done|]. intros Hl.
  rewrite filter_cons, decide_False by (apply Hl; left).
  apply IH. intros y Hy. apply Hl. by right.
Qed.

Lemma filter_all {A} (P : A → Prop) `{∀ x, Decision (P x)} (l : list A) :
  (∀ x, x ∈ l → P x) → filter P l = l.
Proof.
  induction l as [|x l IH]; [done|]. intros Hl.
  rewrite filter_cons, decide_True by (apply Hl; left).
  f_equal. apply IH. intros y Hy. apply Hl. by right.
Qed.

(** X10. With a negative tolerance (the command line accepts one) no pixel
    is made transparent: the count is 0 and the output is the input with an
    opaque alpha channel added where there was none. *)
Theorem negative_tolerance (img : image) (tolerance : Z) (bg : color)
    (out : image) (n : Z) :
  tolerance < 0 →
  transform img tolerance = Ok (bg, out, n) →
  n = 0 ∧ img_data out = to_rgba <$> img_data img ∧ img_size out = img_size img.
Proof.
  intros Hneg (_ & -> & ->)%transform_inv. cbn [img_data img_size].
  split; [|split; [|done]].
  - unfold spec_count, len.
    rewrite filter_none; [done|].
    intros p _. pose proof (color_distance_nonneg p bg). lia.
  - apply list_fmap_ext. intros i p _.
    apply pixel_eq; [apply spec_pixel_has_alpha|by destruct p
                    |by rewrite spec_pixel_rgb, rgb_to_rgba|].
    rewrite spec_pixel_alpha, alpha_to_rgba.
    pose proof (color_distance_nonneg p bg). case_bool_decide; [lia|done].
Qed.

Lemma negative_tolerance_witness :
  0 = 0 ∧
  img_data (Image RGBA (2, 2)
    [Px4 255 255 255 255; Px4 255 255 255 255; Px4 0 0 0 255; Px4 10 10 10 255])
    = to_rgba <$> img_data sample_rgb ∧
  img_size (Image RGBA (2, 2)
    [Px4 255 255 255 255; Px4 255 255 255 255; Px4 0 0 0 255; Px4 10 10 10 255])
    = img_size sample_rgb.
Proof.
  apply (negative_tolerance sample_rgb (-1) (255, 255, 255)); [lia | reflexivity].
Defined.

Lemma sample_rgb_eight_bit : Forall eight_bit (img_data sample_rgb).
Proof. repeat constructor; cbn; lia. Defined.

(** X11. With 8-bit channels no colour is farther than 765 from another:
    a tolerance of 765 or more makes every pixel of the image transparent,
    and the count is the number of pixels. *)
Theorem full_tolerance (img : image) (tolerance : Z) :
  image_wf img →
  Forall eight_bit (img_data img) →
  765 ≤ tolerance →
  ∃ bg out,
    transform img tolerance = Ok (bg, out, len (img_data img)) ∧
    ∀ (i : nat) q, img_data out !! i = Some q → alpha q = 0.
Proof.
  intros Hwf H8 Htol.
  destruct (transform_ok img tolerance Hwf) as (tl & tr & bl & br & bg & H).
  destruct (img_size img) as [wd ht] eqn:Hsz.
  destruct H as (_ & _ & _ & _ & _ & Htr).
  pose proof Htr as (Hdet & _ & _)%transform_inv.
  destruct (detected_is_a_corner img bg Hwf Hdet) as (c & pc & _ & _ & Lc & Hbg).
  assert (Hnear : ∀ p, p ∈ img_data img → color_distance p bg ≤ tolerance).
  { intros p Hp. rewrite Forall_forall in H8.
    pose proof (H8 p Hp) as H8p.
    pose proof (H8 pc (list_elem_of_lookup_2 _ _ _ Lc)) as H8c.
    unfold eight_bit, color_distance in *. rewrite Hbg in H8c.
    destruct (rgb p) as [[r g] b]. destruct bg as [[kr kg] kb]. cbn [fst snd]. lia. }
  exists bg. eexists. split.
  - rewrite Htr. do 3 f_equal. unfold spec_count. by rewrite filter_all.
  - cbn [img_data]. intros i q. rewrite list_lookup_fmap.
    destruct (img_data img !! i) as [p|] eqn:Hp; [|done]. cbn. intros [= <-].
    rewrite spec_pixel_alpha, bool_decide_eq_true_2; [done|].
    apply Hnear. by eapply list_elem_of_lookup_2.
Qed.

Lemma full_tolerance_witness :
  ∃ bg out,
    transform sample_rgb 765 = Ok (bg, out, len (img_data sample_rgb)) ∧
    ∀ (i : nat) q, img_data out !! i = Some q → alpha q = 0.
Proof.
  apply (full_tolerance sample_rgb 765 sample_rgb_wf sample_rgb_eight_bit). lia.
Defined.

(** X12. The detected colour is always the colour of a corner pixel, so
    with a tolerance of 0 or more that corner is made transparent: at least
    one pixel changes even when the image has no background at all. *)
Theorem corner_becomes_transparent (img : image) (tolerance : Z) :
  image_wf img →
  0 ≤ tolerance →
  ∃ bg out n c p q,
    transform img tolerance = Ok (bg, out, n) ∧ 1 ≤ n ∧
    c ∈ corner_indices (img_size img) ∧
    img_data img !! Z.to_nat c = Some p ∧ rgb p = bg ∧
    img_data out !! Z.to_nat c = Some q ∧ rgb q = bg ∧ alpha q = 0.
Proof.
  intros Hwf Htol.
  destruct (transform_ok img tolerance Hwf) as (tl & tr & bl & br & bg & H).
  destruct (img_size img) as [wd ht] eqn:Hsz.
  destruct H as (_ & _ & _ & _ & _ & Htr).
  pose proof Htr as (Hdet & _ & _)%transform_inv.
  destruct (detected_is_a_corner img bg Hwf Hdet) as (c & p & Hc & _ & Lc & Hbg).
  rewrite Hsz in Hc.
  assert (Hd : color_distance p bg = 0).
  { unfold color_distance. rewrite Hbg. destruct bg as [[kr kg] kb].
    cbn [fst snd]. lia. }
  eexists bg, _, _, c, p, (spec_pixel bg tolerance p).
  split; [exact Htr|]. split.
  - unfold spec_count, len.
    assert (Hin : p ∈ filter (λ item, color_distance item bg ≤ tolerance)
                          (img_data img)).
    { apply list_elem_of_filter. split; [lia|by eapply list_elem_of_lookup_2]. }
    destruct (filter _ _); [by apply elem_of_nil in Hin|]. cbn [length]. lia.
  - split; [done|]. split; [done|]. split; [done|]. cbn [img_data].
    rewrite list_lookup_fmap, Lc. split; [done|].
    split; [by rewrite spec_pixel_rgb|].
    rewrite spec_pixel_alpha, bool_decide_eq_true_2; [done|lia].
Qed.

Lemma corner_becomes_transparent_witness :
  ∃ bg out n c p q,
    transform sample_rgba 0 = Ok (bg, out, n) ∧ 1 ≤ n ∧
    c ∈ corner_indices (img_size sample_rgba) ∧
    img_data sample_rgba !! Z.to_nat c = Some p ∧ rgb p = bg ∧
    img_data out !! Z.to_nat c = Some q ∧ rgb q = bg ∧ alpha q = 0.
Proof. apply (corner_becomes_transparent sample_rgba 0 sample_rgba_wf). lia. Defined.

(** ** More on detection *)

(** X13. A colour that occurs among the four corner samples more often
    than every other sample colour is the detected one, wherever it stands:
    in particular a colour that fills three corners always wins. *)
Theorem strict_majority_wins (size : Z * Z) (data corners : list pixel) (c : color) :
  getitems data (corner_indices size) = Ok corners →
  c ∈ rgb <$> corners →
  (∀ s, s ∈ rgb <$> corners → s ≠ c →
        (occurrences s (rgb <$> corners) < occurrences c (rgb <$> corners))%nat) →
  detect_bg_color size data = Ok c.
Proof.
  intros Hget Hc Hstrict. unfold detect_bg_color. rewrite Hget.
  cbn [mbind result_bind].
  assert (∃ p0 p1 p2 p3, corners = [p0; p1; p2; p3]) as (p0 & p1 & p2 & p3 & ->).
  { unfold corner_indices in Hget. cbn [getitems] in Hget.
    destruct (getitem data 0); [|by cbn in Hget].
    destruct (getitem data (size.1 - 1)); [|by cbn in Hget].
    destruct (getitem data (size.1 * (size.2 - 1))); [|by cbn in Hget].
    destruct (getitem data (size.1 * size.2 - 1)); [|by cbn in Hget].
    cbn in Hget. injection Hget as <-. by eexists _, _, _, _. }
  cbn [fmap list_fmap] in *.
  pose proof (most_common_four (rgb p0) (rgb p1) (rgb p2) (rgb p3)) as Hmc.
  destruct (most_common_1 (Counter [rgb p0; rgb p1; rgb p2; rgb p3]))
    as [|top rest] eqn:Emc.
  { exfalso. unfold Counter in Emc. cbn [foldl counter_add] in Emc.
    repeat (case_decide; cbn [counter_add] in Emc); discriminate. }
  cbn [head fmap option_fmap option_map] in Hmc. symmetry in Hmc.
  apply spec_majority_first in Hmc as (Hin & Hmax & _).
  assert (top.1 = c) as <-; [|done].
  destruct (decide (top.1 = c)) as [|Hne]; [done|].
  specialize (Hstrict _ Hin Hne). specialize (Hmax _ Hc). lia.
Qed.

Lemma strict_majority_wins_witness :
  detect_bg_color (2, 2) [Px3 0 0 0; Px3 255 255 255; Px3 255 255 255; Px3 255 255 255]
  = Ok (255, 255, 255).
Proof.
  apply (strict_majority_wins (2, 2) _
           [Px3 0 0 0; Px3 255 255 255; Px3 255 255 255; Px3 255 255 255]).
  - reflexivity.
  - decide_by_compute.
  - intros s Hs Hne. cbn [fmap list_fmap rgb] in *.
    rewrite !elem_of_cons, elem_of_nil in Hs.
    destruct Hs as [->|[->|[->|[->|[]]]]]; try done. vm_compute. lia.
Defined.

Lemma getitem_insert_ne {A} (l : list A) (i : nat) (x : A) (j : Z) :
  0 ≤ j → Z.of_nat i ≠ j → getitem (<[i := x]> l) j = getitem l j.
Proof.
  intros Hj Hne. unfold getitem. rewrite length_insert.
  destruct (Z.ltb_spec j 0); [lia|]. destruct (_ || _); [done|].
  rewrite list_lookup_insert_ne by lia. done.
Qed.

Lemma getitems_insert_ne {A} (l : list A) (i : nat) (x : A) (indices : list Z) :
  Forall (λ j, 0 ≤ j) indices → Z.of_nat i ∉ indices →
  getitems (<[i := x]> l) indices = getitems l indices.
Proof.
  induction indices as [|j indices IH]; [done|].
  intros [Hj Hrest]%Forall_cons [Hne Hnin]%not_elem_of_cons.
  cbn [getitems]. by rewrite getitem_insert_ne, IH.
Qed.

(** X14. A pixel that is not at one of the four corner indices has no
    influence beyond its own place: replacing it leaves the detected
    background colour and every other output pixel as they were, and puts
    the pixel the rule prescribes for the new value at its index. *)
Theorem interior_pixel_is_local (img : image) (tolerance : Z) (i : nat) (p : pixel)
    (bg : color) (out : image) (n : Z) :
  image_wf img →
  Z.of_nat i ∉ corner_indices (img_size img) →
  transform img tolerance = Ok (bg, out, n) →
  ∃ n',
    transform (Image (img_mode img) (img_size img) (<[i := p]> (img_data img)))
              tolerance
    = Ok (bg,
          Image RGBA (img_size img)
                (<[i := spec_pixel bg tolerance p]> (img_data out)),
          n').
Proof.
  intros Hwf Hi (Hdet & -> & ->)%transform_inv.
  eexists. rewrite transform_data. cbn [img_size img_data].
  assert (Hsame : detect_bg_color (img_size img) (<[i := p]> (img_data img))
                  = detect_bg_color (img_size img) (img_data img)).
  { unfold detect_bg_color. rewrite getitems_insert_ne; [done| |done].
    destruct img as [m [w h] data]. destruct Hwf as (Hw & Hh & Hlen).
    cbn [img_size img_data fst snd] in *.
    eapply Forall_impl; [by apply (corner_indices_in_range w h data)|].
    intros j. cbn. lia. }
  rewrite Hsame, Hdet. cbn [mbind result_bind].
  by rewrite list_fmap_insert.
Qed.

Lemma interior_pixel_is_local_witness :
  ∃ n',
    transform (Image (img_mode sample_rgba) (img_size sample_rgba)
                     (<[1%nat := Px4 1 2 3 4]> (img_data sample_rgba))) 30
    = Ok ((200, 200, 200),
          Image RGBA (img_size sample_rgba)
            (<[1%nat := spec_pixel (200, 200, 200) 30 (Px4 1 2 3 4)]>
               (img_data (Image RGBA (3, 1)
                  [Px4 200 200 200 0; Px4 210 210 190 0; Px4 210 210 189 77]))),
          n').
Proof.
  apply (interior_pixel_is_local sample_rgba 30 1 (Px4 1 2 3 4) (200, 200, 200) _ 2).
  - exact sample_rgba_wf.
  - decide_by_compute.
  - reflexivity.
Defined.

(** ** Running the script again on its own output *)

(** X15. When a file is processed in place (input and output path the
    same, as the command line does) and then processed again with the same
    tolerance, the second run succeeds, leaves the file exactly as the first
    run left it, and prints the same background colour and count. *)
Theorem rerun_in_place (path : string) (tolerance : Z) (w : world) (img : image) :
  fs w !! path = Some (FImage img) →
  image_wf img →
  path ∉ unwritable w →
  let run1 := remove_background path (Some path) tolerance w in
  let run2 := remove_background path (Some path) tolerance run1.2 in
  ∃ bg out n,
    run1.1 = Ok true ∧ run2.1 = Ok true ∧
    fs run1.2 !! path = Some (FImage out) ∧
    fs run2.2 = fs run1.2 ∧
    stdout run1.2 = stdout w ++ success_lines img bg n path ∧
    stdout run2.2 = stdout run1.2 ++ success_lines out bg n path.
Proof.
  intros Hin Hwf Hw.
  destruct (transform_ok img tolerance Hwf) as (tl & tr & bl & br & bg & H).
  destruct (img_size img) as [wd ht] eqn:Hsz.
  destruct H as (_ & _ & _ & _ & _ & Htr).
  assert (Hd : fs w !! path ≠ Some FDir) by (by rewrite Hin).
  pose proof (remove_background_success path (Some path) tolerance w img _ _ _
                Hin Htr Hw Hd) as Hrun1.
  cbn [resolved_output] in Hrun1.
  pose proof (transform_after img tolerance tolerance _ _ _ Htr) as Htr2.
  rewrite Z.max_id, Hsz in Htr2.
  cbn zeta. rewrite Hrun1. cbn [fst snd].
  erewrite (remove_background_success path (Some path) tolerance _ _ _ _ _ _ Htr2).
  - eexists bg, _, _. cbn [fst snd fs stdout resolved_output].
    rewrite lookup_insert_eq, insert_insert_eq. done.
  - done.
  - cbn [fs resolved_output]. by rewrite lookup_insert_eq.
  Unshelve. cbn [fs]. by rewrite lookup_insert_eq.
Qed.

Lemma rerun_in_place_witness :
  let run1 := remove_background "a.png" (Some "a.png") 30 sample_world in
  let run2 := remove_background "a.png" (Some "a.png") 30 run1.2 in
  ∃ bg out n,
    run1.1 = Ok true ∧ run2.1 = Ok true ∧
    fs run1.2 !! "a.png" = Some (FImage out) ∧
    fs run2.2 = fs run1.2 ∧
    stdout run1.2 = stdout sample_world ++ success_lines sample_rgb bg n "a.png" ∧
    stdout run2.2 = stdout run1.2 ++ success_lines out bg n "a.png".
Proof.
  apply (rerun_in_place "a.png" 30 sample_world sample_rgb).
  - reflexivity.
  - exact sample_rgb_wf.
  - decide_by_compute.
Defined.

(** ** Backups *)

Lemma add_lines_nil (w : world) : add_lines [] w = w.
Proof. apply set_stdout_nil. Qed.

Lemma add_lines_add_lines (ls1 ls2 : list line) (w : world) :
  add_lines ls2 (add_lines ls1 w) = add_lines (ls1 ++ ls2) w.
Proof. unfold add_lines, set_stdout. cbn. by rewrite app_assoc. Qed.

Lemma print_eq (l : line) (w : world) : print l w = (Ok (), add_lines [l] w).
Proof. done. Qed.

Lemma backup_path_ne (img_file : string) : img_file +:+ ".backup" ≠ img_file.
Proof.
  intros Heq. apply (f_equal String.length) in Heq.
  rewrite length_app in Heq. cbn in Heq. lia.
Qed.

(** The backup step in closed form. *)
Lemma make_backup_eq backup img_file w :
  make_backup backup img_file w =
    if backup then
      let backup_path := img_file +:+ ".backup" in
      let warning := [Lit "Warning: Could not create backup: "; FExn OSError] in
      match fs w !! backup_path with
      | Some _ => (Ok (), w)
      | None =>
          match fs w !! img_file with
          | Some FDir | None => (Ok (), add_lines [warning] w)
          | Some content =>
              if bool_decide (backup_path ∈ unwritable w)
              then (Ok (), add_lines [warning] w)
              else (Ok (),
                    World (<[backup_path := content]> (fs w)) (unwritable w)
                          (glob_result w)
                          (stdout w ++ [[Lit "Backup created: ";
                                         Lit (os_path_basename backup_path)]]))
          end
      end
    else (Ok (), w).
Proof.
  unfold make_backup. destruct backup; [|done]. cbn zeta.
  unfold mbind at 1. unfold M_bind, os_path_exists.
  destruct (fs w !! (img_file +:+ ".backup")) as [c|] eqn:Hbk.
  { by rewrite bool_decide_eq_true_2 by eauto. }
  rewrite bool_decide_eq_false_2 by (by intros [? ?]). cbn [negb].
  unfold try_except, mbind, M_bind, shutil_copy2. rewrite Hbk.
  rewrite (bool_decide_eq_false_2 (None = Some FDir)) by done.
  rewrite orb_false_r.
  destruct (fs w !! img_file) as [[img| |]|]; try done;
    by destruct (bool_decide _).
Qed.

Lemma backup_is_safe_frame backup img_file w q :
  q ≠ img_file +:+ ".backup" →
  fs (make_backup backup img_file w).2 !! q = fs w !! q.
Proof.
  intros Hq. rewrite make_backup_eq. destruct backup; [|done]. cbn zeta.
  destruct (fs w !! (img_file +:+ ".backup")); [done|].
  destruct (fs w !! img_file) as [[img| |]|]; try done;
    destruct (bool_decide _); try done;
    cbn [snd fs]; by rewrite lookup_insert_ne.
Qed.

(** X16. The backup step is safe: it never raises, it changes no path
    other than "<file>.backup" (so never the image itself), and when a
    backup is already there it does nothing at all, leaving the older backup
    in place. *)
Theorem backup_is_safe (backup : bool) (img_file : string) (w : world) :
  (make_backup backup img_file w).1 = Ok () ∧
  (∀ q, q ≠ img_file +:+ ".backup" →
        fs (make_backup backup img_file w).2 !! q = fs w !! q) ∧
  fs (make_backup backup img_file w).2 !! img_file = fs w !! img_file ∧
  (is_Some (fs w !! (img_file +:+ ".backup")) →
   make_backup backup img_file w = (Ok (), w)).
Proof.
  assert (Hframe : (make_backup backup img_file w).1 = Ok () ∧
            ∀ q, q ≠ img_file +:+ ".backup" →
                 fs (make_backup backup img_file w).2 !! q = fs w !! q).
  { rewrite make_backup_eq. destruct backup; [|done]. cbn zeta.
    destruct (fs w !! (img_file +:+ ".backup")); [done|].
    destruct (fs w !! img_file) as [[img| |]|]; try done;
      destruct (bool_decide _); try done;
      (split; [done|]; intros q Hq; cbn [snd fs]; by rewrite lookup_insert_ne). }
  destruct Hframe as [Hok Hframe]. split; [done|]. split; [done|].
  split.
  - apply Hframe. intros Heq. by apply (backup_path_ne img_file).
  - intros [c Hc]. rewrite make_backup_eq. destruct backup; [|done].
    cbn zeta. by rewrite Hc.
Qed.

Lemma backup_is_safe_witness :
  (make_backup true "d/a.png" backup_world).1 = Ok () ∧
  (∀ q, q ≠ "d/a.png" +:+ ".backup" →
        fs (make_backup true "d/a.png" backup_world).2 !! q = fs backup_world !! q) ∧
  fs (make_backup true "d/a.png" backup_world).2 !! "d/a.png"
    = fs backup_world !! "d/a.png" ∧
  (is_Some (fs backup_world !! ("d/a.png" +:+ ".backup")) →
   make_backup true "d/a.png" backup_world = (Ok (), backup_world)).
Proof. exact (backup_is_safe true "d/a.png" backup_world). Defined.

(** X17. With backups on, a file that has no backup yet and whose backup
    path can be written is copied to "<file>.backup" as it is, before it is
    processed, and "Backup created: <name>.backup" is printed. *)
Theorem backup_created (img_file : string) (w : world) (content : file) :
  fs w !! img_file = Some content →
  content ≠ FDir →
  fs w !! (img_file +:+ ".backup") = None →
  img_file +:+ ".backup" ∉ unwritable w →
  make_backup true img_file w =
    (Ok (),
     World (<[img_file +:+ ".backup" := content]> (fs w)) (unwritable w)
           (glob_result w)
           (stdout w ++
            [[Lit "Backup created: "; Lit (os_path_basename (img_file +:+ ".backup"))]])).
Proof.
  intros Hf Hc Hbk Hw. rewrite make_backup_eq. cbn zeta. rewrite Hbk, Hf.
  rewrite bool_decide_eq_false_2 by done. by destruct content.
Qed.

Lemma backup_created_witness :
  make_backup true "d/b.png" backup_world =
    (Ok (),
     World (<["d/b.png" +:+ ".backup" := FImage sample_rgb]> (fs backup_world))
           (unwritable backup_world) (glob_result backup_world)
           (stdout backup_world ++
            [[Lit "Backup created: ";
              Lit (os_path_basename ("d/b.png" +:+ ".backup"))]])).
Proof.
  apply (backup_created "d/b.png" backup_world (FImage sample_rgb)).
  - reflexivity.
  - discriminate.
  - reflexivity.
  - decide_by_compute.
Defined.

(** X18. A backup that cannot be made is not fatal: when the copy fails
    (here: the backup path cannot be written), the step prints
    "Warning: Could not create backup: <exception>", changes no file and
    returns, so that processing goes on without a backup. *)
Theorem backup_failure_is_a_warning (img_file : string) (w : world) :
  fs w !! (img_file +:+ ".backup") = None →
  img_file +:+ ".backup" ∈ unwritable w →
  make_backup true img_file w =
    (Ok (),
     World (fs w) (unwritable w) (glob_result w)
           (stdout w ++ [[Lit "Warning: Could not create backup: "; FExn OSError]])).
Proof.
  intros Hbk Hw. rewrite make_backup_eq. cbn zeta. rewrite Hbk.
  rewrite bool_decide_eq_true_2 by done.
  by destruct (fs w !! img_file) as [[img| |]|].
Qed.

Lemma backup_failure_is_a_warning_witness :
  make_backup true "a.png" faulty_world =
    (Ok (),
     World (fs faulty_world) (unwritable faulty_world) (glob_result faulty_world)
           (stdout faulty_world ++
            [[Lit "Warning: Could not create backup: "; FExn OSError]])).
Proof.
  apply (backup_failure_is_a_warning "a.png" faulty_world);
    [reflexivity | decide_by_compute].
Defined.

(** ** The batch driver in closed form *)

Lemma for_each_print_eq {A} (l : list A) (f : A → line) (w : world) :
  for_each l () (λ _ x, print (f x)) w = (Ok (), add_lines (f <$> l) w).
Proof.
  revert w. induction l as [|x l IH]; intros w.
  - cbn. unfold mret, M_ret. by rewrite add_lines_nil.
  - cbn [for_each]. unfold mbind, M_bind. rewrite print_eq, IH.
    by rewrite add_lines_add_lines.
Qed.

Lemma process_one_eq tolerance backup success_count img_file w :
  process_one tolerance backup success_count img_file w =
    (Raise (NameError "remove_white_background"),
     (make_backup backup img_file
        (add_lines [[Nl; Lit "--- Processing: "; Lit (os_path_basename img_file);
                     Lit " ---"]] w)).2).
Proof.
  unfold process_one, mbind, M_bind. rewrite print_eq. cbv beta iota.
  unfold line.
  destruct (make_backup_returns backup img_file
              (add_lines [[Nl; Lit "--- Processing: ";
                           Lit (os_path_basename img_file); Lit " ---"]] w))
    as [w' Hmb].
  rewrite !Hmb. cbv beta iota. by rewrite call_unbound.
Qed.

(** Every way a call of [process_directory] can go. *)
Lemma process_directory_eq directory_path tolerance backup w :
  process_directory directory_path tolerance backup w =
    match fs w !! directory_path with
    | None =>
        (Ok false,
         add_lines [[Lit "Error: Directory '"; Lit directory_path;
                     Lit "' not found."]] w)
    | Some _ =>
        match found_images w directory_path with
        | [] =>
            (Ok false,
             add_lines [[Lit "No image files found in '"; Lit directory_path;
                         Lit "'"]] w)
        | img_file :: rest =>
            (Raise (NameError "remove_white_background"),
             (make_backup backup img_file
                (add_lines
                   ([[Nl; Lit "Found "; FInt (len (img_file :: rest));
                      Lit " image(s) to process:"]] ++
                    ((λ f, [Lit "  - "; Lit (os_path_basename f)])
                       <$> img_file :: rest) ++
                    [[Nl; Lit "--- Processing: "; Lit (os_path_basename img_file);
                      Lit " ---"]]) w)).2)
        end
    end.
Proof.
  unfold process_directory.
  unfold mbind at 1. unfold M_bind at 1. unfold os_path_exists.
  destruct (fs w !! directory_path) as [d|].
  2:{ by rewrite bool_decide_eq_false_2 by (by intros [? ?]). }
  rewrite bool_decide_eq_true_2 by eauto. cbn [negb].
  unfold mbind at 1. unfold M_bind at 1. rewrite glob_loop.
  fold (found_images w directory_path).
  destruct (found_images w directory_path) as [|img_file rest]; [done|].
  rewrite bool_decide_eq_false_2 by done.
  unfold mbind at 1. unfold M_bind at 1. rewrite print_eq.
  unfold mbind at 1. unfold M_bind at 1.
  rewrite (for_each_print_eq (img_file :: rest)
             (λ f, [Lit "  - "; Lit (os_path_basename f)])).
  unfold mbind at 1. unfold M_bind at 1.
  cbn [for_each]. unfold mbind at 1. unfold M_bind at 1.
  rewrite process_one_eq. by rewrite !add_lines_add_lines.
Qed.

(** X19. On a directory path that does not exist [process_directory]
    returns [False], prints "Error: Directory '<path>' not found." and does
    nothing else. *)
Theorem missing_directory (directory_path : string) (tolerance : Z) (backup : bool)
    (w : world) :
  fs w !! directory_path = None →
  process_directory directory_path tolerance backup w =
    (Ok false,
     World (fs w) (unwritable w) (glob_result w)
       (stdout w ++
        [[Lit "Error: Directory '"; Lit directory_path; Lit "' not found."]])).
Proof. intros Hd. by rewrite process_directory_eq, Hd. Qed.

Lemma missing_directory_witness :
  process_directory "nowhere" 30 true batch_world =
    (Ok false,
     World (fs batch_world) (unwritable batch_world) (glob_result batch_world)
       (stdout batch_world ++
        [[Lit "Error: Directory '"; Lit "nowhere"; Lit "' not found."]])).
Proof. apply (missing_directory "nowhere" 30 true batch_world). reflexivity. Defined.

(** X20. On a directory in which none of the ten patterns ("*.png",
    "*.PNG", "*.jpg", ... "*.TIFF") matches, [process_directory] returns
    [False], prints "No image files found in '<path>'", and makes no backup
    and no other change. *)
Theorem no_images_found (directory_path : string) (tolerance : Z) (backup : bool)
    (w : world) :
  is_Some (fs w !! directory_path) →
  found_images w directory_path = [] →
  process_directory directory_path tolerance backup w =
    (Ok false,
     World (fs w) (unwritable w) (glob_result w)
       (stdout w ++ [[Lit "No image files found in '"; Lit directory_path; Lit "'"]])).
Proof. intros [d Hd] Hnone. by rewrite process_directory_eq, Hd, Hnone. Qed.

Lemma no_images_found_witness :
  process_directory "folder" 30 true faulty_world =
    (Ok false,
     World (fs faulty_world) (unwritable faulty_world) (glob_result faulty_world)
       (stdout faulty_world ++
        [[Lit "No image files found in '"; Lit "folder"; Lit "'"]])).
Proof.
  apply (no_images_found "folder" 30 true faulty_world); [|reflexivity].
  decide_by_compute.
Defined.

(** The order in which the batch lists the files it found: for each
    extension in turn, lower-case matches before upper-case ones. *)
Example found_images_order :
  found_images
    (World ∅ ∅ (λ pattern,
       if decide (pattern = "d/*.png") then ["d/a.png"]
       else if decide (pattern = "d/*.PNG") then ["d/B.PNG"]
       else if decide (pattern = "d/*.JPG") then ["d/C.JPG"]
       else if decide (pattern = "d/*.tiff") then ["d/e.tiff"]
       else []) []) "d"
  = ["d/a.png"; "d/B.PNG"; "d/C.JPG"; "d/e.tiff"].
Proof. reflexivity. Qed.

(** X21. As the code stands, [process_directory] never returns [True] and
    never changes an image: it returns [False] (missing directory, or no
    image found) or ends in NameError at the first file found, and the only
    path it can have changed by then is the backup of that first file. With
    backups off it changes no file at all. *)
Theorem batch_outcomes (directory_path : string) (tolerance : Z) (backup : bool)
    (w : world) :
  let run := process_directory directory_path tolerance backup w in
  (run.1 = Ok false ∨ run.1 = Raise (NameError "remove_white_background")) ∧
  (∀ q, (∀ first, head (found_images w directory_path) = Some first →
                  q ≠ first +:+ ".backup") →
        fs run.2 !! q = fs w !! q) ∧
  (backup = false → fs run.2 = fs w).
Proof.
  cbn zeta. rewrite process_directory_eq.
  destruct (fs w !! directory_path) as [d|]; [|by auto].
  destruct (found_images w directory_path) as [|img_file rest]; [by auto|].
  cbn [fst snd head]. split; [by right|]. split.
  - intros q Hq. rewrite backup_is_safe_frame by (by apply Hq). done.
  - intros ->. by rewrite make_backup_eq.
Qed.

Lemma batch_outcomes_witness :
  let run := process_directory "d" 30 true backup_world in
  (run.1 = Ok false ∨ run.1 = Raise (NameError "remove_white_background")) ∧
  (∀ q, (∀ first, head (found_images backup_world "d") = Some first →
                  q ≠ first +:+ ".backup") →
        fs run.2 !! q = fs backup_world !! q) ∧
  (true = false → fs run.2 = fs backup_world).
Proof. exact (batch_outcomes "d" 30 true backup_world). Defined.

(** ** The command line in closed form *)

Lemma main_process_eq filename tolerance w :
  main_process filename tolerance w =
    match fs w !! cli_filepath filename with
    | None =>
        (Ok (),
         add_lines [[Lit "Error: File '"; Lit (cli_filepath filename);
                     Lit "' not found."]] w)
    | Some _ =>
        let run := remove_background (cli_filepath filename)
                     (Some (cli_filepath filename)) tolerance
                     (add_lines (cli_header (cli_filepath filename) tolerance) w) in
        (Ok (),
         add_lines
           [[Nl; Lit (match run.1 with
                      | Ok true => "Image processing completed successfully!"
                      | _ => "Image processing failed."
                      end)]] run.2)
    end.
Proof.
  unfold main_process. cbn zeta.
  unfold mbind at 1. unfold M_bind at 1. unfold os_path_exists.
  destruct (fs w !! cli_filepath filename) as [f|].
  2:{ by rewrite bool_decide_eq_false_2 by (by intros [? ?]). }
  rewrite bool_decide_eq_true_2 by eauto. cbn [negb].
  unfold mbind, M_bind. rewrite !print_eq. cbv beta iota.
  rewrite !add_lines_add_lines. cbn [app]. unfold cli_header, line.
  destruct (remove_background_never_raises (cli_filepath filename)
              (Some (cli_filepath filename)) tolerance
              (add_lines
                 [[Lit "Processing: "; Lit (cli_filepath filename)];
                  [Lit "Tolerance: "; FInt tolerance];
                  [Lit "No backup will be created - overwriting original file"]] w))
    as [b Hb].
  destruct (remove_background _ _ _ _) as [r w'] eqn:Hrun.
  cbn [fst snd] in *. subst r. by destruct b.
Qed.

Lemma main_eq int argv w :
  main int argv w =
    match argv with
    | prog :: filename :: rest =>
        main_process filename (cli_tolerance int rest)
          (add_lines (cli_warning int rest) w)
    | _ =>
        (Ok (),
         add_lines
           [ [Lit "Usage: python remove_white_background.py <filename> [tolerance]"];
             [Lit "Example: python remove_white_background.py zombie.png 30"] ] w)
    end.
Proof.
  unfold main, parse_tolerance.
  destruct argv as [|prog [|filename rest]].
  1,2: by (match goal with
           | |- context [len ?l <? 2] => change (len l <? 2) with true
           end;
           cbv iota; unfold mbind, M_bind; rewrite !print_eq; cbv beta iota;
           rewrite add_lines_add_lines).
  destruct (Z.ltb_spec (len (prog :: filename :: rest)) 2) as [Hlt|_].
  { unfold len in Hlt. cbn [length] in Hlt. lia. }
  destruct (getitem_in_range (prog :: filename :: rest) 1) as (x1 & L1 & ->).
  { unfold len. cbn [length]. lia. }
  compute in L1. injection L1 as <-.
  unfold mbind at 1. unfold M_bind at 1. unfold lift at 1.
  unfold mbind at 1. unfold M_bind at 1.
  destruct rest as [|arg rest].
  - cbn. unfold mret, M_ret. by rewrite add_lines_nil.
  - destruct (Z.ltb_spec 2 (len (prog :: filename :: arg :: rest))) as [_|Hge].
    2:{ unfold len in Hge. cbn [length] in Hge. lia. }
    destruct (getitem_in_range (prog :: filename :: arg :: rest) 2) as (x2 & L2 & ->).
    { unfold len. cbn [length]. lia. }
    compute in L2. injection L2 as <-.
    unfold mbind, M_bind, lift. cbn [cli_tolerance cli_warning].
    destruct (int arg) as [k|]; cbn [default].
    + unfold mret, M_ret. by rewrite add_lines_nil.
    + by rewrite print_eq.
Qed.

(** ** Properties of the command line *)

(** X22. Called without a file name (no argument at all, or only the
    program name), [main] prints the two usage lines and returns; nothing is
    read or written. *)
Theorem usage_message (int : string → option Z) (argv : list string) (w : world) :
  (length argv < 2)%nat →
  main int argv w =
    (Ok (),
     World (fs w) (unwritable w) (glob_result w)
       (stdout w ++
        [ [Lit "Usage: python remove_white_background.py <filename> [tolerance]"];
          [Lit "Example: python remove_white_background.py zombie.png 30"] ])).
Proof.
  intros Hlen. rewrite main_eq.
  destruct argv as [|prog [|filename rest]]; [done|done|cbn in Hlen; lia].
Qed.

Lemma usage_message_witness :
  main int_decimal ["remove_white_background.py"] cli_world =
    (Ok (),
     World (fs cli_world) (unwritable cli_world) (glob_result cli_world)
       (stdout cli_world ++
        [ [Lit "Usage: python remove_white_background.py <filename> [tolerance]"];
          [Lit "Example: python remove_white_background.py zombie.png 30"] ])).
Proof.
  apply (usage_message int_decimal ["remove_white_background.py"] cli_world).
  cbn. lia.
Defined.


(** X24. [main] resolves a bare file name under "assets" and uses a name
    that contains a "/" as it is. *)
Theorem cli_filepath_spec (filename : string) :
  cli_filepath filename =
    if contains_sep filename then filename else "assets/" +:+ filename.
Proof.
  unfold cli_filepath. destruct (contains_sep filename) eqn:Hsep; [done|].
  cbn [negb]. unfold os_path_join.
  assert (starts_with_sep filename = false) as ->; [|done].
  unfold contains_sep in Hsep. apply bool_decide_eq_false_1 in Hsep.
  unfold starts_with_sep. destruct (chars filename) as [|c l]; [done|].
  apply bool_decide_eq_false_2. intros ->. apply Hsep. left.
Qed.

Example cli_filepath_bare : cli_filepath "zombie.png" = "assets/zombie.png".
Proof. reflexivity. Qed.

Example cli_filepath_relative : cli_filepath "./zombie.png" = "./zombie.png".
Proof. reflexivity. Qed.

(** X25. When the resolved file does not exist, [main] prints the warning
    about the tolerance if that argument was not an integer, then
    "Error: File '<path>' not found.", and returns without touching any
    file. *)
Theorem main_file_not_found (int : string → option Z) (prog filename : string)
    (rest : list string) (w : world) :
  fs w !! cli_filepath filename = None →
  main int (prog :: filename :: rest) w =
    (Ok (),
     World (fs w) (unwritable w) (glob_result w)
       (stdout w ++ cli_warning int rest ++
        [[Lit "Error: File '"; Lit (cli_filepath filename); Lit "' not found."]])).
Proof.
  intros Hin. rewrite main_eq, main_process_eq. cbn [add_lines fs set_stdout].
  rewrite Hin. by rewrite add_lines_add_lines.
Qed.

Lemma main_file_not_found_witness :
  main int_decimal ["remove_white_background.py"; "ghost.png"; "x"] cli_world =
    (Ok (),
     World (fs cli_world) (unwritable cli_world) (glob_result cli_world)
       (stdout cli_world ++ cli_warning int_decimal ["x"] ++
        [[Lit "Error: File '"; Lit (cli_filepath "ghost.png"); Lit "' not found."]])).
Proof.
  apply (main_file_not_found int_decimal "remove_white_background.py" "ghost.png"
           ["x"] cli_world).
  reflexivity.
Defined.

(** X26. [main] can change one file only, the resolved input path, which
    it overwrites in place; every other path is left as it was, and no
    backup is made. *)
Theorem main_touches_one_file (int : string → option Z) (prog filename : string)
    (rest : list string) (w : world) (q : string) :
  q ≠ cli_filepath filename →
  fs (main int (prog :: filename :: rest) w).2 !! q = fs w !! q.
Proof.
  intros Hq. rewrite main_eq, main_process_eq. cbn [add_lines fs set_stdout].
  destruct (fs w !! cli_filepath filename); [|done].
  cbn zeta. cbn [snd add_lines set_stdout fs].
  by rewrite (remove_background_writes_only (cli_filepath filename)
                (Some (cli_filepath filename)) _ _ q Hq).
Qed.

Lemma main_touches_one_file_witness :
  fs (main int_decimal ["remove_white_background.py"; "zombie.png"; "30"]
        cli_world).2 !! "assets/zombie.png.backup"
  = fs cli_world !! "assets/zombie.png.backup".
Proof.
  apply (main_touches_one_file int_decimal "remove_white_background.py" "zombie.png"
           ["30"] cli_world "assets/zombie.png.backup").
  decide_by_compute.
Defined.

(** X27. Without a tolerance argument [main] processes the file with
    tolerance 30 and prints no warning: the saved image is the transform of
    the file's image at tolerance 30, written over the file. *)
Theorem default_tolerance (int : string → option Z) (prog filename : string)
    (w : world) (img : image) :
  fs w !! cli_filepath filename = Some (FImage img) →
  image_wf img →
  cli_filepath filename ∉ unwritable w →
  ∃ bg out n,
    transform img 30 = Ok (bg, out, n) ∧
    main int [prog; filename] w =
      (Ok (),
       World (<[cli_filepath filename := FImage out]> (fs w))
             (unwritable w) (glob_result w)
             (stdout w ++
              [ [Lit "Processing: "; Lit (cli_filepath filename)];
                [Lit "Tolerance: "; FInt 30];
                [Lit "No backup will be created - overwriting original file"] ] ++
              success_lines img bg n (cli_filepath filename) ++
              [[Nl; Lit "Image processing completed successfully!"]])).
Proof.
  intros Hin Hwf Hw.
  destruct (transform_ok img 30 Hwf) as (tl & tr & bl & br & bg & H).
  destruct (img_size img) as [wd ht] eqn:Hsz.
  destruct H as (_ & _ & _ & _ & _ & Htr).
  eexists bg, _, _. split; [exact Htr|].
  rewrite main_eq. cbn [cli_tolerance cli_warning]. rewrite add_lines_nil.
  by rewrite (main_process_success filename 30 w img _ _ _ Hin Htr Hw).
Qed.

Lemma default_tolerance_witness :
  ∃ bg out n,
    transform sample_rgb 30 = Ok (bg, out, n) ∧
    main int_decimal ["remove_white_background.py"; "zombie.png"] cli_world =
      (Ok (),
       World (<[cli_filepath "zombie.png" := FImage out]> (fs cli_world))
             (unwritable cli_world) (glob_result cli_world)
             (stdout cli_world ++
              [ [Lit "Processing: "; Lit (cli_filepath "zombie.png")];
                [Lit "Tolerance: "; FInt 30];
                [Lit "No backup will be created - overwriting original file"] ] ++
              success_lines sample_rgb bg n (cli_filepath "zombie.png") ++
              [[Nl; Lit "Image processing completed successfully!"]])).
Proof.
  apply (default_tolerance int_decimal "remove_white_background.py" "zombie.png"
           cli_world sample_rgb).
  - reflexivity.
  - exact sample_rgb_wf.
  - decide_by_compute.
Defined.

(** X28. When the file exists but the processing fails (here: the file is
    not an image), [main] still returns normally; after the error line of
    [remove_background] it prints "Image processing failed." and the file is
    unchanged. *)
Theorem main_reports_failure (int : string → option Z) (prog filename : string)
    (rest : list string) (w : world) :
  fs w !! cli_filepath filename = Some FOther →
  main int (prog :: filename :: rest) w =
    (Ok (),
     World (fs w) (unwritable w) (glob_result w)
       (stdout w ++ cli_warning int rest ++
        cli_header (cli_filepath filename) (cli_tolerance int rest) ++
        [ [Lit "Error processing image: "; FExn UnidentifiedImageError];
          [Nl; Lit "Image processing failed."] ])).
Proof.
  intros Hin. rewrite main_eq, main_process_eq. cbn [add_lines fs set_stdout].
  rewrite Hin. cbn zeta. rewrite remove_background_eq.
  cbn [add_lines fs set_stdout]. rewrite Hin. cbn [fst snd].
  rewrite !add_lines_add_lines. unfold add_lines, set_stdout, error_line.
  by rewrite <- ?app_assoc.
Qed.

Lemma main_reports_failure_witness :
  main int_decimal ["remove_white_background.py"; "./junk.png"; "12"] faulty_world =
    (Ok (),
     World (fs faulty_world) (unwritable faulty_world) (glob_result faulty_world)
       (stdout faulty_world ++ cli_warning int_decimal ["12"] ++
        cli_header (cli_filepath "./junk.png") (cli_tolerance int_decimal ["12"]) ++
        [ [Lit "Error processing image: "; FExn UnidentifiedImageError];
          [Nl; Lit "Image processing failed."] ])).
Proof.
  apply (main_reports_failure int_decimal "remove_white_background.py" "./junk.png"
           ["12"] faulty_world).
  reflexivity.
Defined.
